(** * lohost DNS interposition: [*.localhost] resolves to 127.0.0.1

    A shallow embedding of the two interposition modules of the repository,

      - [src/dylib/lohost_dns_full.c]   (macOS, DYLD interpose: getaddrinfo,
                                         dlsym, libinfo getaddrinfo_async_start)
      - [src/native/linux/lohost_dns.c] (Linux, LD_PRELOAD: getaddrinfo)

    C strings are byte lists ending at their first NUL, C [int]s are [Z],
    pointers are an inductive type with a [NULL], the statics of each module
    are fields of its state record, and what each module does outside itself
    (calls of the real resolver, of the captured asynchronous entry point and
    of the caller's callback, stores through the caller's out-pointers) is
    appended to a trace.  What the outside answers (the real dlsym, the
    resolvers' return values) is a record of functions, [env]. *)

From Stdlib Require Import ZArith List Bool Lia String.
From Stdlib Require Import Strings.Byte.
From Stdlib Require Import DecimalN DecimalPos.
Import ListNotations.
Local Open Scope Z_scope.

(* ================================================================= *)
(** ** The part of libc the modules call *)

Module LibC.

(** A [const char *] is modelled by the bytes found from the pointer on; the
    string it denotes stops at the first NUL, and the end of the list reads
    as a NUL too. *)
Definition cstring := list byte.

Definition lit (s : string) : cstring := list_byte_of_string s.

Definition uchar (c : byte) : Z := Z.of_N (Byte.to_N c).

Definition is_nul (c : byte) : bool := Byte.eqb c x00.

(** The text of a C string: its bytes before the terminator. *)
Fixpoint c_str (p : cstring) : list byte :=
  match p with
  | [] => []
  | c :: p' => if is_nul c then [] else c :: c_str p'
  end.

Fixpoint strlen (p : cstring) : Z :=
  match p with
  | [] => 0
  | c :: p' => if is_nul c then 0 else 1 + strlen p'
  end.

(** [strcmp]: the difference of the first pair of bytes that differ, taken as
    [unsigned char]; 0 when both strings end together. *)
Fixpoint strcmp (a b : cstring) : Z :=
  match a, b with
  | x :: a', y :: b' =>
      if Byte.eqb x y then (if is_nul x then 0 else strcmp a' b')
      else uchar x - uchar y
  | _, _ => uchar (hd x00 a) - uchar (hd x00 b)
  end.

(** Pointer arithmetic [p + n] on a [char *]. *)
Definition ptr_add (p : cstring) (n : Z) : cstring := skipn (Z.to_nat n) p.

Definition isspace (c : byte) : bool :=
  (uchar c =? 32) || ((9 <=? uchar c) && (uchar c <=? 13)).

Definition isdigit (c : byte) : bool := (48 <=? uchar c) && (uchar c <=? 57).

Fixpoint skip_space (p : cstring) : cstring :=
  match p with
  | c :: p' => if isspace c then skip_space p' else p
  | [] => []
  end.

Fixpoint digits_value (acc : Z) (p : cstring) : Z :=
  match p with
  | c :: p' => if isdigit c then digits_value (10 * acc + (uchar c - 48)) p' else acc
  | [] => acc
  end.

Definition LONG_MIN : Z := - 2 ^ 63.
Definition LONG_MAX : Z := 2 ^ 63 - 1.

(** [strtol(p, NULL, 10)] on an LP64 target: blanks, an optional sign, the
    decimal digits, saturating at the ends of [long]. *)
Definition strtol10 (p : cstring) : Z :=
  let p := skip_space p in
  let '(neg, p) :=
    match p with
    | c :: p' =>
        if Byte.eqb c "-"%byte then (true, p')
        else if Byte.eqb c "+"%byte then (false, p')
        else (false, p)
    | [] => (false, [])
    end in
  let v := digits_value 0 p in
  let v := if neg then - v else v in
  Z.max LONG_MIN (Z.min LONG_MAX v).

(** Conversion of an integer to a 32-bit [int] (two's complement). *)
Definition to_int (z : Z) : Z := (z + 2 ^ 31) mod 2 ^ 32 - 2 ^ 31.

(** [atoi(p)] is [(int) strtol(p, NULL, 10)], as in glibc and in Apple's libc. *)
Definition atoi (p : cstring) : Z := to_int (strtol10 p).

Inductive byte_order := LittleEndian | BigEndian.

(** Conversion to [uint16_t]. *)
Definition to_uint16 (z : Z) : Z := z mod 2 ^ 16.

Definition bswap16 (x : Z) : Z := (x mod 256) * 256 + x / 256.

(** [htons] takes a [uint16_t] argument; on a little-endian host it swaps
    the two bytes. *)
Definition htons (bo : byte_order) (x : Z) : Z :=
  let x := to_uint16 x in
  match bo with
  | BigEndian => x
  | LittleEndian => bswap16 x
  end.

Definition ntohs (bo : byte_order) (x : Z) : Z := htons bo x.

(** [inet_pton(AF_INET, src, dst)]: dotted-decimal text to four octets in
    network order; [None] when the text is rejected (return value 0), in
    which case [dst] is left as it was.  [done] holds the finished octets in
    reverse, [cur] the octet being read and [saw] whether it has a digit. *)
Fixpoint inet_pton4 (src : cstring) (done : list Z) (cur : Z) (saw : bool)
  : option (list Z) :=
  let finish :=
    if saw && (List.length done =? 3)%nat then Some (rev (cur :: done)) else None in
  match src with
  | [] => finish
  | ch :: src' =>
      if is_nul ch then finish
      else if isdigit ch then
        let new := cur * 10 + (uchar ch - 48) in
        if saw && (cur =? 0) then None
        else if 255 <? new then None
        else if negb saw && (4 <=? List.length done)%nat then None
        else inet_pton4 src' done new true
      else if Byte.eqb ch "."%byte && saw then
        if (List.length done =? 3)%nat then None
        else inet_pton4 src' (cur :: done) 0 false
      else None
  end.

Definition inet_pton_AF_INET (src : cstring) : option (list Z) :=
  inet_pton4 src [] 0 false.

End LibC.
Import LibC.

(* ================================================================= *)
(** ** Hostname classifier (identical in both source files) *)

Definition localhost_suffix : cstring := lit ".localhost".

(** [static int is_localhost_domain(const char *hostname)];
    [None] is the null pointer. *)
Definition is_localhost_domain (hostname : option cstring) : Z :=
  match hostname with
  | None => 0
  | Some hostname =>
      let len := strlen hostname in
      if (10 <=? len) && (strcmp (ptr_add hostname (len - 10)) localhost_suffix =? 0)
      then 1
      else 0
  end.

(** The last [n] elements of a list that has at least [n]. *)
Definition trailing {A} (n : nat) (s : list A) : list A :=
  skipn (List.length s - n) s.

(* ================================================================= *)
(** ** Data model *)

(** Nullable pointers to objects the modules never look into: handles,
    function pointers they are given, callback contexts, out-parameters. *)
Inductive ptr := NULL | Addr (a : positive).

Definition is_null (p : ptr) : bool :=
  match p with NULL => true | Addr _ => false end.

Inductive os := Darwin | Linux.

Definition AF_INET : Z := 2.
Definition AF_INET6 (o : os) : Z := match o with Darwin => 30 | Linux => 10 end.
Definition SOCK_STREAM : Z := 1.
Definition IPPROTO_TCP : Z := 6.
Definition sizeof_sockaddr_in : Z := 16.

(** [struct sockaddr_in]; [sin_addr] is the four bytes of [s_addr] as they
    lie in memory (network order), [sin_port] the [uint16_t] as the host
    reads it.  glibc's struct has no [sin_len]: there the field stays 0. *)
Record sockaddr_in := {
  sin_len : Z;
  sin_family : Z;
  sin_port : Z;
  sin_addr : list Z
}.

(** What an [ai_addr] may point to: the payload is tagged by its family, and
    only the IPv4 case is built here. *)
Inductive sockaddr :=
| Sockaddr_in (sa : sockaddr_in)
| Sockaddr_other (family : Z) (raw : list byte).

(** [struct addrinfo]; [None] is a null [ai_addr], [ai_canonname], [ai_next]. *)
#[local] Set Warnings "-register-all".
Inductive addrinfo : Type := Build_addrinfo {
  ai_flags : Z;
  ai_family : Z;
  ai_socktype : Z;
  ai_protocol : Z;
  ai_addrlen : Z;
  ai_addr : option sockaddr;
  ai_canonname : option cstring;
  ai_next : option addrinfo
}.

(** Memory as [calloc] hands it out. *)
Definition zero_sockaddr_in : sockaddr_in :=
  {| sin_len := 0; sin_family := 0; sin_port := 0; sin_addr := [0; 0; 0; 0] |}.

Definition zero_addrinfo : addrinfo :=
  {| ai_flags := 0; ai_family := 0; ai_socktype := 0; ai_protocol := 0;
     ai_addrlen := 0; ai_addr := None; ai_canonname := None; ai_next := None |}.

Definition set_sin_len (v : Z) (sa : sockaddr_in) : sockaddr_in :=
  {| sin_len := v; sin_family := sin_family sa; sin_port := sin_port sa;
     sin_addr := sin_addr sa |}.
Definition set_sin_family (v : Z) (sa : sockaddr_in) : sockaddr_in :=
  {| sin_len := sin_len sa; sin_family := v; sin_port := sin_port sa;
     sin_addr := sin_addr sa |}.
Definition set_sin_port (v : Z) (sa : sockaddr_in) : sockaddr_in :=
  {| sin_len := sin_len sa; sin_family := sin_family sa; sin_port := v;
     sin_addr := sin_addr sa |}.
Definition set_sin_addr (v : list Z) (sa : sockaddr_in) : sockaddr_in :=
  {| sin_len := sin_len sa; sin_family := sin_family sa; sin_port := sin_port sa;
     sin_addr := v |}.

Definition set_ai_flags (v : Z) (ai : addrinfo) : addrinfo :=
  Build_addrinfo v (ai_family ai) (ai_socktype ai) (ai_protocol ai)
    (ai_addrlen ai) (ai_addr ai) (ai_canonname ai) (ai_next ai).
Definition set_ai_family (v : Z) (ai : addrinfo) : addrinfo :=
  Build_addrinfo (ai_flags ai) v (ai_socktype ai) (ai_protocol ai)
    (ai_addrlen ai) (ai_addr ai) (ai_canonname ai) (ai_next ai).
Definition set_ai_socktype (v : Z) (ai : addrinfo) : addrinfo :=
  Build_addrinfo (ai_flags ai) (ai_family ai) v (ai_protocol ai)
    (ai_addrlen ai) (ai_addr ai) (ai_canonname ai) (ai_next ai).
Definition set_ai_protocol (v : Z) (ai : addrinfo) : addrinfo :=
  Build_addrinfo (ai_flags ai) (ai_family ai) (ai_socktype ai) v
    (ai_addrlen ai) (ai_addr ai) (ai_canonname ai) (ai_next ai).
Definition set_ai_addrlen (v : Z) (ai : addrinfo) : addrinfo :=
  Build_addrinfo (ai_flags ai) (ai_family ai) (ai_socktype ai) (ai_protocol ai)
    v (ai_addr ai) (ai_canonname ai) (ai_next ai).
Definition set_ai_addr (v : option sockaddr) (ai : addrinfo) : addrinfo :=
  Build_addrinfo (ai_flags ai) (ai_family ai) (ai_socktype ai) (ai_protocol ai)
    (ai_addrlen ai) v (ai_canonname ai) (ai_next ai).
Definition set_ai_canonname (v : option cstring) (ai : addrinfo) : addrinfo :=
  Build_addrinfo (ai_flags ai) (ai_family ai) (ai_socktype ai) (ai_protocol ai)
    (ai_addrlen ai) (ai_addr ai) v (ai_next ai).
Definition set_ai_next (v : option addrinfo) (ai : addrinfo) : addrinfo :=
  Build_addrinfo (ai_flags ai) (ai_family ai) (ai_socktype ai) (ai_protocol ai)
    (ai_addrlen ai) (ai_addr ai) (ai_canonname ai) v.

(* ================================================================= *)
(** ** Effects: a state monad, the trace, the allocator, the environment *)

Definition M (S A : Type) : Type := S -> A * S.

Definition ret {S A} (a : A) : M S A := fun s => (a, s).

Definition bind {S A B} (m : M S A) (k : A -> M S B) : M S B :=
  fun s => let (a, s') := m s in k a s'.

Declare Scope monad_scope.
Delimit Scope monad_scope with monad.
Notation "x <- m ;; k" := (bind m (fun x => k))
  (at level 61, m at next level, right associativity) : monad_scope.
Notation "m ;; k" := (bind m (fun _ => k))
  (at level 61, right associativity) : monad_scope.
Local Open Scope monad_scope.

(** What a module does to the world outside itself, in program order:
    calls of the real resolver, of the captured asynchronous entry point and
    of the caller's callback, and stores through the caller's out-pointers. *)
Inductive event :=
| Call_getaddrinfo (fn : ptr) (node service : option cstring)
    (hints : option addrinfo) (res : positive)
| Call_async_start (fn : ptr) (port : ptr) (node service : option cstring)
    (hints : option addrinfo) (callback context : ptr)
| Call_callback (callback : ptr) (status : Z) (res : option addrinfo) (context : ptr)
| Store_res (res : positive) (v : addrinfo)
| Store_port (port : ptr) (v : Z).

(** The process around the module.  [calloc_plan] decides the coming
    allocations, one entry each ([false]: out of memory); when it runs out,
    allocation succeeds.  [LOHOST_DEBUG] is what [getenv] finds. *)
Record sys := {
  calloc_plan : list bool;
  trace : list event;
  LOHOST_DEBUG : option cstring;
  stderr : list string
}.

Definition emit (e : event) : M sys unit :=
  fun s => (tt, {| calloc_plan := calloc_plan s; trace := trace s ++ [e];
                   LOHOST_DEBUG := LOHOST_DEBUG s; stderr := stderr s |}).

(** [static void debug_log(const char *fmt, ...)]: one line on stderr when
    the variable is set; the line is kept as its format string. *)
Definition debug_log (fmt : string) : M sys unit :=
  fun s =>
    match LOHOST_DEBUG s with
    | None => (tt, s)
    | Some _ =>
        (tt, {| calloc_plan := calloc_plan s; trace := trace s;
                LOHOST_DEBUG := LOHOST_DEBUG s;
                stderr := stderr s ++ ["[lohost-dns] " ++ fmt]%string |})
    end.

(** [calloc(1, sizeof *p)]: a zeroed object, or [None] for a null result. *)
Definition calloc {T} (zero : T) : M sys (option T) :=
  fun s =>
    match calloc_plan s with
    | [] => (Some zero, s)
    | ok :: plan =>
        (if ok then Some zero else None,
         {| calloc_plan := plan; trace := trace s;
            LOHOST_DEBUG := LOHOST_DEBUG s; stderr := stderr s |})
    end.

Definition free {T} (p : T) : M sys unit := ret tt.

(** What the code outside the module answers: the host's byte order, the
    real [dlsym], the real [getaddrinfo] ([fn] is [NULL] for the direct call
    of the interposed symbol, the function pointer otherwise) and the
    function behind a captured asynchronous entry point. *)
Record env := {
  host_order : byte_order;
  dlsym : ptr -> option cstring -> ptr;
  real_getaddrinfo_result :
    ptr -> option cstring -> option cstring -> option addrinfo -> positive -> Z;
  real_async_start_result :
    ptr -> ptr -> option cstring -> option cstring -> option addrinfo ->
    ptr -> ptr -> Z
}.

(* ================================================================= *)
(** ** Synthetic record builder *)

(** [static struct addrinfo* make_localhost_result(const char *service,
    const struct addrinfo *hints)].  The two source files differ in one
    line: the macOS one also sets [sin_len]. *)
Definition make_localhost_result (o : os) (bo : byte_order)
    (service : option cstring) (hints : option addrinfo)
  : M sys (option addrinfo) :=
  ai <- calloc zero_addrinfo ;;
  match ai with
  | None => ret None
  | Some ai =>
      sa <- calloc zero_sockaddr_in ;;
      match sa with
      | None => free ai ;; ret None
      | Some sa =>
          let sa := match o with
                    | Darwin => set_sin_len sizeof_sockaddr_in sa
                    | Linux => sa
                    end in
          let sa := set_sin_family AF_INET sa in
          let sa := match inet_pton_AF_INET (lit "127.0.0.1") with
                    | Some a => set_sin_addr a sa
                    | None => sa
                    end in
          let sa := match service with
                    | Some service =>
                        let port := atoi service in
                        set_sin_port (htons bo (if 0 <? port then port else 0)) sa
                    | None => sa
                    end in
          let ai := set_ai_flags
                      (match hints with Some h => ai_flags h | None => 0 end) ai in
          let ai := set_ai_family AF_INET ai in
          let ai := set_ai_socktype
                      (match hints with Some h => ai_socktype h | None => SOCK_STREAM end) ai in
          let ai := set_ai_protocol
                      (match hints with Some h => ai_protocol h | None => IPPROTO_TCP end) ai in
          let ai := if ai_socktype ai =? 0 then set_ai_socktype SOCK_STREAM ai else ai in
          let ai := if ai_protocol ai =? 0 then set_ai_protocol IPPROTO_TCP ai else ai in
          let ai := set_ai_addrlen sizeof_sockaddr_in ai in
          let ai := set_ai_addr (Some (Sockaddr_in sa)) ai in
          let ai := set_ai_canonname None ai in
          let ai := set_ai_next None ai in
          ret (Some ai)
      end
  end.

(** The test both synchronous hooks make before building:
    [hints && hints->ai_family == AF_INET6]. *)
Definition hints_want_inet6 (o : os) (hints : option addrinfo) : bool :=
  match hints with
  | Some h => ai_family h =? AF_INET6 o
  | None => false
  end.

(* ================================================================= *)
(** ** [src/dylib/lohost_dns_full.c] *)

Module Dylib.

(** The module's one static, [real_async_start], and the process. *)
Record state := {
  real_async_start : ptr;
  process : sys
}.

Definition lift {A} (m : M sys A) : M state A :=
  fun st =>
    let (a, s) := m (process st) in
    (a, {| real_async_start := real_async_start st; process := s |}).

Definition load_real_async_start : M state ptr :=
  fun st => (real_async_start st, st).

Definition store_real_async_start (p : ptr) : M state unit :=
  fun st => (tt, {| real_async_start := p; process := process st |}).

(** [int hooked_getaddrinfo(node, service, hints, res)].  The call of
    [getaddrinfo] inside the interposing module reaches the real resolver
    ([fn] is [NULL]: a direct call). *)
Definition hooked_getaddrinfo (e : env) (node service : option cstring)
    (hints : option addrinfo) (res : positive) : M state Z :=
  let fallthrough : M state Z :=
    lift (emit (Call_getaddrinfo NULL node service hints res)) ;;
    ret (real_getaddrinfo_result e NULL node service hints res) in
  if negb (is_localhost_domain node =? 0) then
    lift (debug_log "getaddrinfo: intercepted %s -> 127.0.0.1") ;;
    if hints_want_inet6 Darwin hints then fallthrough
    else
      result <- lift (make_localhost_result Darwin (host_order e) service hints) ;;
      match result with
      | Some result => lift (emit (Store_res res result)) ;; ret 0
      | None => fallthrough
      end
  else fallthrough.

(** [static int32_t hooked_getaddrinfo_async_start(port, node, service,
    hints, callback, context)]. *)
Definition hooked_getaddrinfo_async_start (e : env) (port : ptr)
    (node service : option cstring) (hints : option addrinfo)
    (callback context : ptr) : M state Z :=
  let call_real : M state Z :=
    real <- load_real_async_start ;;
    if negb (is_null real) then
      lift (emit (Call_async_start real port node service hints callback context)) ;;
      ret (real_async_start_result e real port node service hints callback context)
    else
      lift (debug_log "ERROR: No real_async_start available") ;;
      (if negb (is_null callback)
       then lift (emit (Call_callback callback (-1) None context))
       else ret tt) ;;
      ret (-1) in
  lift (debug_log "getaddrinfo_async_start: node=%s") ;;
  if negb (is_localhost_domain node =? 0) then
    lift (debug_log "getaddrinfo_async_start: intercepted %s -> 127.0.0.1") ;;
    result <- lift (make_localhost_result Darwin (host_order e) service hints) ;;
    match result with
    | Some result =>
        (if negb (is_null callback)
         then lift (emit (Call_callback callback 0 (Some result) context))
         else ret tt) ;;
        (if negb (is_null port) then lift (emit (Store_port port 0)) else ret tt) ;;
        ret 0
    | None => call_real
    end
  else call_real.

Definition async_symbol : cstring := lit "getaddrinfo_async_start".

(** What [hooked_dlsym] hands back: the real lookup's answer, or the address
    of the module's own [hooked_getaddrinfo_async_start]. *)
Inductive symbol_address :=
| Real_symbol (p : ptr)
| Hooked_getaddrinfo_async_start.

(** The test [symbol && strcmp(symbol, "getaddrinfo_async_start") == 0]. *)
Definition is_async_symbol (symbol : option cstring) : bool :=
  match symbol with
  | Some symbol => strcmp symbol async_symbol =? 0
  | None => false
  end.

(** [void* hooked_dlsym(void *handle, const char *symbol)]. *)
Definition hooked_dlsym (e : env) (handle : ptr) (symbol : option cstring)
  : M state symbol_address :=
  let result := dlsym e handle symbol in
  if is_async_symbol symbol then
    real <- load_real_async_start ;;
    (if negb (is_null result) && is_null real then
       store_real_async_start result ;;
       lift (debug_log "Captured real getaddrinfo_async_start at %p")
     else ret tt) ;;
    lift (debug_log "dlsym(getaddrinfo_async_start) -> returning our hook") ;;
    ret Hooked_getaddrinfo_async_start
  else ret (Real_symbol result).

(** A call into the module, with the environment it runs in. *)
Inductive call :=
| Dlsym (e : env) (handle : ptr) (symbol : option cstring)
| Getaddrinfo (e : env) (node service : option cstring)
    (hints : option addrinfo) (res : positive)
| Async_start (e : env) (port : ptr) (node service : option cstring)
    (hints : option addrinfo) (callback context : ptr).

Definition step (st : state) (c : call) : state :=
  match c with
  | Dlsym e handle symbol => snd (hooked_dlsym e handle symbol st)
  | Getaddrinfo e node service hints res =>
      snd (hooked_getaddrinfo e node service hints res st)
  | Async_start e port node service hints callback context =>
      snd (hooked_getaddrinfo_async_start e port node service hints callback context st)
  end.

Definition run (cs : list call) (st : state) : state := fold_left step cs st.

(** The first non-null answer of the real lookup among the lookups of the
    asynchronous resolver's symbol; [NULL] when there is none. *)
Fixpoint first_capture (cs : list call) : ptr :=
  match cs with
  | [] => NULL
  | Dlsym e handle symbol :: cs' =>
      if is_async_symbol symbol && negb (is_null (dlsym e handle symbol))
      then dlsym e handle symbol
      else first_capture cs'
  | _ :: cs' => first_capture cs'
  end.

(** The state of a process that has just loaded the module. *)
Definition initial (s : sys) : state :=
  {| real_async_start := NULL; process := s |}.

(** [static void lohost_dns_init(void)], the constructor. *)
Definition lohost_dns_init : M state unit :=
  lift (debug_log "FULL VERSION loaded (hooks: getaddrinfo, dlsym)").

(** The process once the loader has run the constructor. *)
Definition loaded (s : sys) : state := snd (lohost_dns_init (initial s)).

End Dylib.

(* ================================================================= *)
(** ** [src/native/linux/lohost_dns.c] *)

Module Linux.

(** The module's one static, [real_getaddrinfo], and the process. *)
Record state := {
  real_getaddrinfo : ptr;
  process : sys
}.

Definition lift {A} (m : M sys A) : M state A :=
  fun st =>
    let (a, s) := m (process st) in
    (a, {| real_getaddrinfo := real_getaddrinfo st; process := s |}).

Definition load_real_getaddrinfo : M state ptr :=
  fun st => (real_getaddrinfo st, st).

Definition store_real_getaddrinfo (p : ptr) : M state unit :=
  fun st => (tt, {| real_getaddrinfo := p; process := process st |}).

(** The pseudo-handle -1 of <dlfcn.h>. *)
Definition RTLD_NEXT : ptr := Addr 18446744073709551615%positive.

Definition EAI_SYSTEM : Z := -11.

(** [int getaddrinfo(node, service, hints, res)], the LD_PRELOAD override. *)
Definition getaddrinfo (e : env) (node service : option cstring)
    (hints : option addrinfo) (res : positive) : M state Z :=
  let resolve : M state Z :=
    let fallthrough : M state Z :=
      real <- load_real_getaddrinfo ;;
      lift (emit (Call_getaddrinfo real node service hints res)) ;;
      ret (real_getaddrinfo_result e real node service hints res) in
    if negb (is_localhost_domain node =? 0) then
      lift (debug_log "getaddrinfo: intercepted %s -> 127.0.0.1") ;;
      if hints_want_inet6 Linux hints then fallthrough
      else
        result <- lift (make_localhost_result Linux (host_order e) service hints) ;;
        match result with
        | Some result => lift (emit (Store_res res result)) ;; ret 0
        | None => fallthrough
        end
    else fallthrough in
  real <- load_real_getaddrinfo ;;
  if is_null real then
    store_real_getaddrinfo (dlsym e RTLD_NEXT (Some (lit "getaddrinfo"))) ;;
    real <- load_real_getaddrinfo ;;
    if is_null real then
      lift (debug_log "ERROR: Could not find real getaddrinfo") ;;
      ret EAI_SYSTEM
    else resolve
  else resolve.

(** The real resolver a call ends up holding: the cached pointer, or what the
    lookup behind [RTLD_NEXT] answers when nothing is cached yet. *)
Definition located (e : env) (st : state) : ptr :=
  if is_null (real_getaddrinfo st)
  then dlsym e RTLD_NEXT (Some (lit "getaddrinfo"))
  else real_getaddrinfo st.

(** [static void lohost_dns_init(void)], the constructor. *)
Definition lohost_dns_init : M state unit :=
  lift (debug_log "Linux version loaded (hook: getaddrinfo)").

(** The state of a process that has just loaded the module, before and
    after its constructor. *)
Definition initial (s : sys) : state :=
  {| real_getaddrinfo := NULL; process := s |}.

Definition loaded (s : sys) : state := snd (lohost_dns_init (initial s)).

(** A call of the override, with the environment it runs in. *)
Record call := Getaddrinfo {
  call_env : env;
  call_node : option cstring;
  call_service : option cstring;
  call_hints : option addrinfo;
  call_res : positive
}.

Definition step (st : state) (c : call) : state :=
  snd (getaddrinfo (call_env c) (call_node c) (call_service c) (call_hints c)
         (call_res c) st).

Definition run (cs : list call) (st : state) : state := fold_left step cs st.

(** The first non-null answer the loader gives, among the calls of a
    sequence, for the next [getaddrinfo]; [NULL] when it never gives one. *)
Fixpoint first_located (cs : list call) : ptr :=
  match cs with
  | [] => NULL
  | c :: cs' =>
      if is_null (dlsym (call_env c) RTLD_NEXT (Some (lit "getaddrinfo")))
      then first_located cs'
      else dlsym (call_env c) RTLD_NEXT (Some (lit "getaddrinfo"))
  end.

End Linux.


(* ================================================================= *)
(** ** Vocabulary of the statements *)

(** Both allocations of the builder succeed under the plan of [s]. *)
Definition allocations_succeed (s : sys) : bool :=
  match calloc_plan s with
  | false :: _ => false
  | _ :: false :: _ => false
  | _ => true
  end.

(** The events of a guarded call [if (callback) callback(status, res, context)]
    and of a guarded store [if (port) *port = 0]. *)
Definition callback_event (callback : ptr) (status : Z) (res : option addrinfo)
    (context : ptr) : list event :=
  if is_null callback then [] else [Call_callback callback status res context].

Definition port_store (port : ptr) : list event :=
  if is_null port then [] else [Store_port port 0].

Definition is_callback (ev : event) : bool :=
  match ev with Call_callback _ _ _ _ => true | _ => false end.

Definition is_real_call (ev : event) : bool :=
  match ev with
  | Call_getaddrinfo _ _ _ _ _ | Call_async_start _ _ _ _ _ _ _ => true
  | _ => false
  end.

(** How many times a trace calls a callback, and the real resolver. *)
Definition callbacks (t : list event) : nat := List.length (filter is_callback t).
Definition real_calls (t : list event) : nat := List.length (filter is_real_call t).

(** Two records agree in every field; the address and the port are the
    contents of the payload [ai_addr] points to. *)
Definition field_equal (a b : addrinfo) : Prop :=
  ai_family a = ai_family b /\
  ai_addr a = ai_addr b /\
  ai_flags a = ai_flags b /\
  ai_socktype a = ai_socktype b /\
  ai_protocol a = ai_protocol b /\
  ai_addrlen a = ai_addrlen b /\
  ai_canonname a = ai_canonname b /\
  ai_next a = ai_next b.

(** The function pointers a trace calls the asynchronous entry point
    through, and those it calls the synchronous resolver through. *)
Definition async_target (ev : event) : list ptr :=
  match ev with Call_async_start fn _ _ _ _ _ _ => [fn] | _ => [] end.

Definition sync_target (ev : event) : list ptr :=
  match ev with Call_getaddrinfo fn _ _ _ _ => [fn] | _ => [] end.

Definition async_targets (t : list event) : list ptr := flat_map async_target t.
Definition sync_targets (t : list event) : list ptr := flat_map sync_target t.

(** Two processes that differ at most in the debug variable and in what has
    been written to stderr. *)
Definition same_but_log (s1 s2 : sys) : Prop :=
  calloc_plan s1 = calloc_plan s2 /\ trace s1 = trace s2.

(** The host sets or unsets the debug variable ([setenv], [unsetenv]):
    [debug_log] asks [getenv] anew at every line, so the variable may differ
    from one call of a hook to the next. *)
Definition setenv_LOHOST_DEBUG (v : option cstring) (s : sys) : sys :=
  {| calloc_plan := calloc_plan s; trace := trace s;
     LOHOST_DEBUG := v; stderr := stderr s |}.

Definition dylib_setenv (v : option cstring) (st : Dylib.state) : Dylib.state :=
  {| Dylib.real_async_start := Dylib.real_async_start st;
     Dylib.process := setenv_LOHOST_DEBUG v (Dylib.process st) |}.

Definition linux_setenv (v : option cstring) (st : Linux.state) : Linux.state :=
  {| Linux.real_getaddrinfo := Linux.real_getaddrinfo st;
     Linux.process := setenv_LOHOST_DEBUG v (Linux.process st) |}.

(** A sequence of calls, each paired with the value the debug variable has
    while that call runs. *)
Definition dylib_run_env (cs : list (option cstring * Dylib.call))
    (st : Dylib.state) : Dylib.state :=
  fold_left (fun st p => Dylib.step (dylib_setenv (fst p) st) (snd p)) cs st.

Definition linux_run_env (cs : list (option cstring * Linux.call))
    (st : Linux.state) : Linux.state :=
  fold_left (fun st p => Linux.step (linux_setenv (fst p) st) (snd p)) cs st.

(** No byte of a list is NUL. *)
Definition nul_free (s : list byte) : Prop := Forall (fun c => c <> x00) s.

(** All the pointers of a list are [p], and [p] is not null. *)
Definition through (p : ptr) (targets : list ptr) : Prop :=
  Forall (fun fn => fn = p /\ fn <> NULL) targets.

(** The digits of a decimal numeral as characters, and the decimal numeral
    of [n] as a service string ("0" for 0, no leading zeros otherwise). *)
Fixpoint bytes_of_uint (d : Decimal.uint) : list byte :=
  match d with
  | Decimal.Nil => []
  | Decimal.D0 d => "0"%byte :: bytes_of_uint d
  | Decimal.D1 d => "1"%byte :: bytes_of_uint d
  | Decimal.D2 d => "2"%byte :: bytes_of_uint d
  | Decimal.D3 d => "3"%byte :: bytes_of_uint d
  | Decimal.D4 d => "4"%byte :: bytes_of_uint d
  | Decimal.D5 d => "5"%byte :: bytes_of_uint d
  | Decimal.D6 d => "6"%byte :: bytes_of_uint d
  | Decimal.D7 d => "7"%byte :: bytes_of_uint d
  | Decimal.D8 d => "8"%byte :: bytes_of_uint d
  | Decimal.D9 d => "9"%byte :: bytes_of_uint d
  end.

Definition decimal (n : N) : cstring := bytes_of_uint (N.to_uint n).

(** *** Sample inputs *)

Module Sample.

(** A process with memory to spare and no debug variable. *)
Definition quiet : sys :=
  {| calloc_plan := []; trace := []; LOHOST_DEBUG := None; stderr := [] |}.

(** A little-endian host whose loader finds every symbol at [0x1000], whose
    resolver answers 8 and whose asynchronous resolver answers 0. *)
Definition host : env :=
  {| host_order := LittleEndian;
     dlsym := fun _ _ => Addr 4096;
     real_getaddrinfo_result := fun _ _ _ _ _ => 8;
     real_async_start_result := fun _ _ _ _ _ _ _ => 0 |}.

(** The same host with a loader that finds nothing. *)
Definition bare_host : env :=
  {| host_order := LittleEndian;
     dlsym := fun _ _ => NULL;
     real_getaddrinfo_result := fun _ _ _ _ _ => 8;
     real_async_start_result := fun _ _ _ _ _ _ _ => 0 |}.

(** The same host with a loader that now answers [0x2000]. *)
Definition later_host : env :=
  {| host_order := LittleEndian;
     dlsym := fun _ _ => Addr 8192;
     real_getaddrinfo_result := fun _ _ _ _ _ => 8;
     real_async_start_result := fun _ _ _ _ _ _ _ => 0 |}.

Definition app : option cstring := Some (lit "app.localhost").
Definition elsewhere : option cstring := Some (lit "example.com").
Definition port_8080 : option cstring := Some (lit "8080").

(** Hints that ask for IPv6 on macOS ([AF_INET6] is 30 there). *)
Definition inet6_hints : addrinfo :=
  {| ai_flags := 0; ai_family := 30; ai_socktype := 0; ai_protocol := 0;
     ai_addrlen := 0; ai_addr := None; ai_canonname := None; ai_next := None |}.

(** Hints of a datagram client that sets [AI_NUMERICSERV] (0x1000 on macOS). *)
Definition udp_hints : addrinfo :=
  {| ai_flags := 4096; ai_family := 0; ai_socktype := 2; ai_protocol := 0;
     ai_addrlen := 0; ai_addr := None; ai_canonname := None; ai_next := None |}.

(** The record both builders make for port 8080 and no hints on a
    little-endian host, up to [sin_len]. *)
Definition loopback_8080 (o : os) : addrinfo :=
  {| ai_flags := 0; ai_family := 2; ai_socktype := 1; ai_protocol := 6;
     ai_addrlen := 16;
     ai_addr := Some (Sockaddr_in
                        {| sin_len := match o with Darwin => 16 | Linux => 0 end;
                           sin_family := 2;
                           sin_port := 36895;
                           sin_addr := [127; 0; 0; 1] |});
     ai_canonname := None; ai_next := None |}.

(** The record the macOS builder makes for port 8080 and [udp_hints]: the
    datagram type is kept, the protocol left at 0 becomes [IPPROTO_TCP]. *)
Definition udp_8080 : addrinfo :=
  {| ai_flags := 4096; ai_family := 2; ai_socktype := 2; ai_protocol := 6;
     ai_addrlen := 16;
     ai_addr := Some (Sockaddr_in
                        {| sin_len := 16; sin_family := 2; sin_port := 36895;
                           sin_addr := [127; 0; 0; 1] |});
     ai_canonname := None; ai_next := None |}.

(** A macOS process in which the real asynchronous entry point is captured. *)
Definition captured : Dylib.state :=
  {| Dylib.real_async_start := Addr 4096; Dylib.process := quiet |}.

(** A Linux process that has not yet looked the real resolver up. *)
Definition fresh_linux : Linux.state :=
  {| Linux.real_getaddrinfo := NULL; Linux.process := quiet |}.

End Sample.

(* ================================================================= *)
(** ** Proof automation *)

(** Case analysis on a successful or failed build. *)
Ltac builder_cases s H :=
  let plan := fresh "plan" in
  destruct s as [plan ? ? ?];
  destruct plan as [|[] [|[] plan]];
  cbv [make_localhost_result bind ret calloc free calloc_plan trace
       LOHOST_DEBUG stderr fst] in H;
  try discriminate H;
  injection H as H; subst.

(** Case analysis on what a hook reads of the state: the static, the debug
    variable and the next two allocations. *)
Ltac world_cases st :=
  let reg := fresh "reg" in
  let plan := fresh "plan" in
  let tr := fresh "tr" in
  let dbg := fresh "dbg" in
  let err := fresh "err" in
  destruct st as [reg [plan tr dbg err]];
  destruct dbg;
  destruct plan as [|[] [|[] plan]].

(** Symbolic execution of a hook, leaving libc's functions folded. *)
Ltac run_hook :=
  cbv [Dylib.hooked_getaddrinfo Dylib.hooked_getaddrinfo_async_start
       Dylib.hooked_dlsym Dylib.lift Dylib.load_real_async_start
       Dylib.store_real_async_start Dylib.process Dylib.real_async_start
       Linux.getaddrinfo Linux.lift Linux.load_real_getaddrinfo
       Linux.store_real_getaddrinfo Linux.process Linux.real_getaddrinfo
       make_localhost_result bind ret emit debug_log calloc free
       calloc_plan trace LOHOST_DEBUG stderr fst snd negb andb is_null].

(** The same for a process without the debug variable, and for two
    processes that differ only in the log. *)
Ltac quiet_cases st H :=
  let reg := fresh "reg" in
  let plan := fresh "plan" in
  let dbg := fresh "dbg" in
  destruct st as [reg [plan ? dbg ?]];
  cbn [Dylib.process Linux.process LOHOST_DEBUG] in H; subst dbg;
  destruct plan as [|[] [|[] plan]].

Ltac twin_cases st1 st2 Hreg Hlog :=
  let reg := fresh "reg" in
  let plan := fresh "plan" in
  let tr := fresh "tr" in
  let dbg1 := fresh "dbg" in
  let dbg2 := fresh "dbg" in
  let reg2 := fresh "reg2" in
  destruct st1 as [reg [plan tr dbg1 ?]], st2 as [reg2 [? ? dbg2 ?]];
  unfold same_but_log in Hlog;
  cbn [Dylib.process Dylib.real_async_start Linux.process Linux.real_getaddrinfo
       calloc_plan trace] in Hreg, Hlog;
  destruct Hlog as [<- <-]; subst reg2;
  destruct dbg1, dbg2;
  destruct plan as [|[] [|[] plan]].

Ltac linux_cases e st :=
  world_cases st;
  match goal with
  | reg : ptr |- _ =>
      destruct reg;
      [destruct (dlsym e Linux.RTLD_NEXT (Some (lit "getaddrinfo"))) eqn:?Hdl|]
  end.

(* ================================================================= *)
(** ** Facts about the libc model *)

Lemma byte_eqb_eq (x y : byte) : Byte.eqb x y = true <-> x = y.
Proof.
  split; [apply Byte.byte_dec_bl | intros ->; apply Byte.byte_dec_lb; reflexivity].
Qed.

Lemma is_nul_true (c : byte) : is_nul c = true <-> c = x00.
Proof. apply byte_eqb_eq. Qed.

Lemma is_nul_false (c : byte) : is_nul c = false <-> c <> x00.
Proof.
  rewrite <- is_nul_true. destruct (is_nul c); split; congruence.
Qed.

Lemma uchar_inj (x y : byte) : uchar x = uchar y -> x = y.
Proof.
  unfold uchar. intro H. apply N2Z.inj in H.
  apply (f_equal Byte.of_N) in H. rewrite !Byte.of_to_N in H. congruence.
Qed.

Lemma uchar_diff_zero (x y : byte) : uchar x - uchar y = 0 <-> x = y.
Proof.
  split; [intro H; apply uchar_inj; lia | intros ->; lia].
Qed.

Lemma strlen_c_str (p : cstring) : strlen p = Z.of_nat (List.length (c_str p)).
Proof.
  induction p as [|c p IH]; cbn [strlen c_str]; [reflexivity|].
  destruct (is_nul c); cbn [List.length]; lia.
Qed.

(** [strcmp] is 0 exactly when the two strings have the same text. *)
Lemma strcmp_zero_iff (a : cstring) :
  forall b, strcmp a b = 0 <-> c_str a = c_str b.
Proof.
  induction a as [|x a IH]; intros [|y b]; simpl.
  - split; reflexivity.
  - change (uchar "000") with 0. destruct (is_nul y) eqn:Hy.
    + apply is_nul_true in Hy. subst y. split; reflexivity.
    + apply is_nul_false in Hy. split; [|discriminate].
      intro H. exfalso. apply Hy. symmetry. apply uchar_diff_zero. exact H.
  - destruct (is_nul x) eqn:Hx.
    + apply is_nul_true in Hx. subst x. split; reflexivity.
    + apply is_nul_false in Hx. split; [|discriminate].
      intro H. exfalso. apply Hx. apply uchar_diff_zero. exact H.
  - destruct (Byte.eqb x y) eqn:Hxy.
    + apply byte_eqb_eq in Hxy. subst y. destruct (is_nul x).
      * split; reflexivity.
      * rewrite IH. split; [intros ->; reflexivity | intro H; now inversion H].
    + assert (x <> y) as Hne
        by (intro Heq; apply byte_eqb_eq in Heq; congruence).
      rewrite uchar_diff_zero. split; [contradiction|].
      destruct (is_nul x) eqn:Hx, (is_nul y) eqn:Hy; intro H; try discriminate.
      * apply is_nul_true in Hx, Hy. congruence.
      * now inversion H.
Qed.

Lemma c_str_skipn (k : nat) :
  forall p, (k <= List.length (c_str p))%nat -> c_str (skipn k p) = skipn k (c_str p).
Proof.
  induction k as [|k IH]; intros p Hk; [reflexivity|].
  destruct p as [|c p]; simpl in *; [lia|].
  destruct (is_nul c); simpl in *; [lia|].
  apply IH. lia.
Qed.

(* ================================================================= *)
(** ** The classifier *)

Lemma is_localhost_domain_bool (hostname : option cstring) :
  is_localhost_domain hostname = 1 \/ is_localhost_domain hostname = 0.
Proof.
  destruct hostname as [p|]; simpl; [|now right].
  destruct (_ && _); [now left | now right].
Qed.

Lemma is_localhost_domain_some (p : cstring) :
  is_localhost_domain (Some p) = 1 <->
  (10 <= List.length (c_str p))%nat /\ trailing 10 (c_str p) = localhost_suffix.
Proof.
  unfold is_localhost_domain, trailing, ptr_add.
  rewrite strlen_c_str.
  destruct (10 <=? Z.of_nat (List.length (c_str p))) eqn:Hlen; simpl.
  - apply Z.leb_le in Hlen.
    replace (Z.to_nat (Z.of_nat (List.length (c_str p)) - 10))
      with (List.length (c_str p) - 10)%nat by lia.
    destruct (Z.eqb_spec
                (strcmp (skipn (List.length (c_str p) - 10) p) localhost_suffix) 0)
      as [H0|H0]; rewrite strcmp_zero_iff, c_str_skipn in H0 by lia.
    + split; [intros _; split; [lia | exact H0] | reflexivity].
    + split; [discriminate | intros [_ H]; contradiction].
  - apply Z.leb_gt in Hlen. split; [discriminate | lia].
Qed.

(** The examples of the specification. *)
Example is_localhost_domain_examples :
  is_localhost_domain (Some (lit "foo.localhost")) = 1 /\
  is_localhost_domain (Some (lit "foolocalhost")) = 0 /\
  is_localhost_domain (Some (lit "x.LOCALHOST")) = 0 /\
  is_localhost_domain (Some (lit "")) = 0 /\
  is_localhost_domain None = 0.
Proof. repeat split. Qed.

(** C1.  The classifier answers 1 exactly for a non-null hostname whose text
    has at least 10 bytes, the last 10 being the bytes of ".localhost"
    (compared byte for byte, so case matters), and answers 0 otherwise; in
    particular a null hostname and an empty one give 0. *)
Theorem is_localhost_domain_spec :
  forall hostname : option cstring,
    (is_localhost_domain hostname = 1 <->
       exists s, hostname = Some s /\
                 (10 <= List.length (c_str s))%nat /\
                 trailing 10 (c_str s) = lit ".localhost")
    /\ (is_localhost_domain hostname = 1 \/ is_localhost_domain hostname = 0)
    /\ is_localhost_domain None = 0
    /\ (forall s, c_str s = [] -> is_localhost_domain (Some s) = 0).
Proof.
  intro hostname. repeat split.
  - destruct hostname as [p|]; [|discriminate].
    intro H. exists p. split; [reflexivity|]. now apply is_localhost_domain_some.
  - intros (s & -> & H). now apply is_localhost_domain_some.
  - apply is_localhost_domain_bool.
  - intros s Hs. destruct (is_localhost_domain_bool (Some s)) as [H|H]; [|exact H].
    apply is_localhost_domain_some in H. rewrite Hs in H. simpl in H. lia.
Qed.

Lemma is_localhost_domain_spec_witness :
  is_localhost_domain (Some (lit "foo.localhost")) = 1 /\
  is_localhost_domain (Some (lit "")) = 0.
Proof.
  split.
  - apply (proj1 (is_localhost_domain_spec (Some (lit "foo.localhost")))).
    exists (lit "foo.localhost").
    split; [reflexivity | split; [simpl; lia | reflexivity]].
  - apply (proj2 (proj2 (proj2 (is_localhost_domain_spec None)))).
    reflexivity.
Defined.

(* ================================================================= *)
(** ** The builder *)

Lemma ntohs_htons (bo : byte_order) (x : Z) : ntohs bo (htons bo x) = x mod 2 ^ 16.
Proof.
  unfold ntohs, htons, to_uint16, bswap16.
  assert (0 <= x mod 2 ^ 16 < 2 ^ 16) as Hy by (apply Z.mod_pos_bound; lia).
  set (y := x mod 2 ^ 16) in *.
  destruct bo.
  - change (2 ^ 16) with 65536 in *.
    pose proof (Z.mod_pos_bound y 256 ltac:(lia)) as Hm.
    assert (0 <= y / 256 < 256) as Hd
      by (split; [apply Z.div_pos; lia | apply Z.div_lt_upper_bound; lia]).
    pose proof (Z.div_mod y 256 ltac:(lia)) as Hdm.
    set (lo := y mod 256) in *. set (hi := y / 256) in *.
    assert ((lo * 256 + hi) mod 65536 = lo * 256 + hi) as ->
      by (apply Z.mod_small; lia).
    assert ((lo * 256 + hi) mod 256 = hi) as ->
      by (rewrite Z.add_comm, Z.mod_add by lia; apply Z.mod_small; lia).
    assert ((lo * 256 + hi) / 256 = lo) as ->
      by (rewrite Z.add_comm, Z.div_add by lia; rewrite (Z.div_small hi) by lia; lia).
    lia.
  - apply Z.mod_small. exact Hy.
Qed.

(** The builder touches nothing of the process but the allocator. *)
Lemma make_localhost_result_frame o bo service hints s :
  let out := make_localhost_result o bo service hints s in
  trace (snd out) = trace s /\
  LOHOST_DEBUG (snd out) = LOHOST_DEBUG s /\
  stderr (snd out) = stderr s.
Proof.
  destruct s as [plan tr dbg err].
  destruct plan as [|[] [|[] plan]];
    cbv [make_localhost_result bind ret calloc free calloc_plan trace
         LOHOST_DEBUG stderr snd]; auto.
Qed.

(** It returns a record exactly when both allocations succeed. *)
Lemma make_localhost_result_some_iff o bo service hints s :
  allocations_succeed s = true <->
  exists ai, fst (make_localhost_result o bo service hints s) = Some ai.
Proof.
  destruct s as [plan tr dbg err]. unfold allocations_succeed. simpl calloc_plan.
  destruct plan as [|[] [|[] plan]];
    cbv [make_localhost_result bind ret calloc free calloc_plan trace
         LOHOST_DEBUG stderr fst];
    split; intro H; try reflexivity; try discriminate;
    try (eexists; reflexivity); try (destruct H; discriminate).
Qed.

(** Whatever the state of the process, two successful builds from the same
    arguments give the same record. *)
Lemma make_localhost_result_deterministic o bo service hints s1 s2 a1 a2 :
  fst (make_localhost_result o bo service hints s1) = Some a1 ->
  fst (make_localhost_result o bo service hints s2) = Some a2 ->
  a1 = a2.
Proof.
  intros H1 H2. builder_cases s1 H1; builder_cases s2 H2; reflexivity.
Qed.

(** C5.  For every service and hints the builder, given memory for its two
    allocations, returns a record, and that record has family AF_INET, a
    payload of family AF_INET holding the address 127.0.0.1, and no next
    record.  Its flags are those of the hints, or 0 without hints; its
    socket type and protocol are those of the hints, or SOCK_STREAM and
    IPPROTO_TCP where the hints are absent or hold 0. *)
Theorem make_localhost_result_record :
  forall o bo service hints s,
    allocations_succeed s = true ->
    exists ai,
      fst (make_localhost_result o bo service hints s) = Some ai /\
      ai_family ai = AF_INET /\
      (exists sa, ai_addr ai = Some (Sockaddr_in sa) /\
                  sin_family sa = AF_INET /\ sin_addr sa = [127; 0; 0; 1]) /\
      ai_next ai = None /\
      ai_flags ai = match hints with Some h => ai_flags h | None => 0 end /\
      ai_socktype ai =
        match hints with
        | Some h => if ai_socktype h =? 0 then SOCK_STREAM else ai_socktype h
        | None => SOCK_STREAM
        end /\
      ai_protocol ai =
        match hints with
        | Some h => if ai_protocol h =? 0 then IPPROTO_TCP else ai_protocol h
        | None => IPPROTO_TCP
        end.
Proof.
  intros o bo service hints [plan tr dbg err] Ha.
  unfold allocations_succeed in Ha. cbn [calloc_plan] in Ha.
  destruct plan as [|[] [|[] plan]]; try discriminate Ha.
  all: cbv [make_localhost_result bind ret calloc free calloc_plan trace
            LOHOST_DEBUG stderr fst].
  all: eexists; split; [reflexivity|].
  all: repeat split.
  all: try (eexists; repeat split; destruct o, service; reflexivity).
  all: destruct hints as [h|]; try reflexivity.
  all: cbn [ai_socktype ai_protocol set_ai_flags set_ai_family set_ai_socktype
            set_ai_protocol zero_addrinfo].
  all: destruct (ai_socktype h =? 0) eqn:E1, (ai_protocol h =? 0) eqn:E2;
       cbn; rewrite ?E1, ?E2; reflexivity.
Qed.

Lemma make_localhost_result_record_witness :
  exists ai,
    fst (make_localhost_result Darwin LittleEndian Sample.port_8080
           (Some Sample.udp_hints) Sample.quiet) = Some ai /\
    ai_family ai = AF_INET /\
    (exists sa, ai_addr ai = Some (Sockaddr_in sa) /\
                sin_family sa = AF_INET /\ sin_addr sa = [127; 0; 0; 1]) /\
    ai_next ai = None /\
    ai_flags ai = 4096 /\
    ai_socktype ai = 2 /\
    ai_protocol ai = IPPROTO_TCP.
Proof.
  exact (make_localhost_result_record Darwin LittleEndian Sample.port_8080
           (Some Sample.udp_hints) Sample.quiet eq_refl).
Defined.

(** C6.  For every service and hints the builder, given memory for its two
    allocations, returns a record whose port field holds [htons] of
    [atoi(service)] when a service is given and [atoi(service)] is positive,
    and of 0 otherwise; read back in network byte order it is
    [atoi(service)] modulo 2^16 in the first case and 0 in the second. *)
Theorem make_localhost_result_port :
  forall o bo service hints s,
    allocations_succeed s = true ->
    exists ai sa,
      fst (make_localhost_result o bo service hints s) = Some ai /\
      ai_addr ai = Some (Sockaddr_in sa) /\
      sin_port sa =
        match service with
        | Some service => htons bo (if 0 <? atoi service then atoi service else 0)
        | None => 0
        end /\
      ntohs bo (sin_port sa) =
        match service with
        | Some service => if 0 <? atoi service then atoi service mod 2 ^ 16 else 0
        | None => 0
        end.
Proof.
  intros o bo service hints [plan tr dbg err] Ha.
  unfold allocations_succeed in Ha. cbn [calloc_plan] in Ha.
  destruct plan as [|[] [|[] plan]]; try discriminate Ha.
  all: cbv [make_localhost_result bind ret calloc free calloc_plan trace
            LOHOST_DEBUG stderr fst].
  all: eexists; eexists; split; [reflexivity|]; split; [reflexivity|].
  all: destruct o, service as [sv|];
       cbn [sin_port set_sin_port set_sin_addr set_sin_family set_sin_len
            zero_sockaddr_in inet_pton_AF_INET].
  all: try (split; [reflexivity | now destruct bo]).
  all: change (inet_pton4 (lit "127.0.0.1") [] 0 false) with (Some [127; 0; 0; 1]);
       cbn [sin_port set_sin_port set_sin_addr set_sin_family set_sin_len
            zero_sockaddr_in].
  all: split; [reflexivity|]; rewrite ntohs_htons; destruct (0 <? atoi sv); reflexivity.
Qed.

(** What [atoi] makes of some service strings, and the ports they give. *)
Example atoi_examples :
  map atoi [lit "8080"; lit "0"; lit "-80"; lit "http"; lit "65536"; lit "70000"]
  = [8080; 0; -80; 0; 65536; 70000] /\
  map (fun z => (if 0 <? z then z else 0) mod 2 ^ 16) [8080; 0; -80; 0; 65536; 70000]
  = [8080; 0; 0; 0; 0; 4464].
Proof. split; vm_compute; reflexivity. Qed.

Lemma make_localhost_result_port_witness :
  exists ai sa,
    fst (make_localhost_result Darwin LittleEndian Sample.port_8080
           (Some Sample.udp_hints) Sample.quiet) = Some ai /\
    ai_addr ai = Some (Sockaddr_in sa) /\
    sin_port sa = htons LittleEndian 8080 /\
    ntohs LittleEndian (sin_port sa) = 8080.
Proof.
  exact (make_localhost_result_port Darwin LittleEndian Sample.port_8080
           (Some Sample.udp_hints) Sample.quiet eq_refl).
Defined.

(* ================================================================= *)
(** ** The synchronous hooks *)

Lemma dylib_sync_synthetic e node service hints res st r :
  is_localhost_domain node = 1 ->
  hints_want_inet6 Darwin hints = false ->
  fst (make_localhost_result Darwin (host_order e) service hints (Dylib.process st))
    = Some r ->
  let out := Dylib.hooked_getaddrinfo e node service hints res st in
  fst out = 0 /\
  trace (Dylib.process (snd out)) = trace (Dylib.process st) ++ [Store_res res r] /\
  Dylib.real_async_start (snd out) = Dylib.real_async_start st.
Proof.
  intros Hres H6 Hb.
  world_cases st; revert Hb; run_hook; rewrite Hres, H6; run_hook; cbv [Z.eqb];
    intro Hb; try discriminate Hb; injection Hb as <-; auto.
Qed.

Lemma dylib_sync_forward e node service hints res st :
  is_localhost_domain node = 0 \/
  hints_want_inet6 Darwin hints = true \/
  fst (make_localhost_result Darwin (host_order e) service hints (Dylib.process st))
    = None ->
  let out := Dylib.hooked_getaddrinfo e node service hints res st in
  fst out = real_getaddrinfo_result e NULL node service hints res /\
  trace (Dylib.process (snd out)) =
    trace (Dylib.process st) ++ [Call_getaddrinfo NULL node service hints res] /\
  Dylib.real_async_start (snd out) = Dylib.real_async_start st.
Proof.
  intros H.
  destruct (is_localhost_domain_bool node) as [Hres|Hres];
    [|world_cases st; run_hook; rewrite Hres; cbv [Z.eqb]; auto].
  destruct (hints_want_inet6 Darwin hints) eqn:H6;
    [world_cases st; run_hook; rewrite Hres, H6; cbv [Z.eqb]; auto|].
  destruct H as [H|[H|H]]; [congruence | congruence |].
  world_cases st; revert H; run_hook; rewrite Hres, H6; cbv [Z.eqb]; intro H;
    try discriminate H; auto.
Qed.

Lemma linux_sync_unavailable e node service hints res st :
  Linux.located e st = NULL ->
  let out := Linux.getaddrinfo e node service hints res st in
  fst out = Linux.EAI_SYSTEM /\
  trace (Linux.process (snd out)) = trace (Linux.process st) /\
  Linux.real_getaddrinfo (snd out) = NULL.
Proof.
  unfold Linux.located. destruct st as [reg s]. destruct reg; simpl; [|discriminate].
  intro Hd. run_hook. rewrite Hd. destruct s as [plan tr [dbg|] err]; auto.
Qed.

Lemma linux_sync_synthetic e node service hints res st r :
  Linux.located e st <> NULL ->
  is_localhost_domain node = 1 ->
  hints_want_inet6 Linux hints = false ->
  fst (make_localhost_result Linux (host_order e) service hints (Linux.process st))
    = Some r ->
  let out := Linux.getaddrinfo e node service hints res st in
  fst out = 0 /\
  trace (Linux.process (snd out)) = trace (Linux.process st) ++ [Store_res res r] /\
  Linux.real_getaddrinfo (snd out) = Linux.located e st.
Proof.
  unfold Linux.located. intros Hloc Hres H6 Hb.
  linux_cases e st; revert Hloc Hb; run_hook; rewrite ?Hdl, ?Hres, ?H6; run_hook;
    cbv [Z.eqb]; intros Hloc Hb; try congruence; try discriminate Hb;
    injection Hb as <-; auto.
Qed.

Lemma linux_sync_forward e node service hints res st :
  Linux.located e st <> NULL ->
  is_localhost_domain node = 0 \/
  hints_want_inet6 Linux hints = true \/
  fst (make_localhost_result Linux (host_order e) service hints (Linux.process st))
    = None ->
  let out := Linux.getaddrinfo e node service hints res st in
  fst out = real_getaddrinfo_result e (Linux.located e st) node service hints res /\
  trace (Linux.process (snd out)) =
    trace (Linux.process st) ++
    [Call_getaddrinfo (Linux.located e st) node service hints res] /\
  Linux.real_getaddrinfo (snd out) = Linux.located e st.
Proof.
  unfold Linux.located. intros Hloc H.
  destruct (is_localhost_domain_bool node) as [Hres|Hres];
    [|linux_cases e st; revert Hloc; run_hook; rewrite ?Hdl, ?Hres; run_hook;
      cbv [Z.eqb]; intros Hloc; try congruence; auto].
  destruct (hints_want_inet6 Linux hints) eqn:H6;
    [linux_cases e st; revert Hloc; run_hook; rewrite ?Hdl, ?Hres, ?H6; run_hook;
     cbv [Z.eqb]; intros Hloc; try congruence; auto|].
  destruct H as [H|[H|H]]; [congruence | congruence |].
  linux_cases e st; revert Hloc H; run_hook; rewrite ?Hdl, ?Hres, ?H6; run_hook;
    cbv [Z.eqb]; intros Hloc H; try congruence; try discriminate H; auto.
Qed.

Lemma linux_sync_unavailable_plan e node service hints res st :
  Linux.located e st = NULL ->
  calloc_plan (Linux.process (snd (Linux.getaddrinfo e node service hints res st)))
  = calloc_plan (Linux.process st).
Proof.
  unfold Linux.located. destruct st as [reg s]. destruct reg; simpl; [|discriminate].
  intro Hd. run_hook. rewrite Hd. destruct s as [plan tr [dbg|] err]; auto.
Qed.

(** C2 fails as stated in a Linux process whose loader finds no next
    [getaddrinfo]: the hostname is reserved, no IPv6 is asked for and the
    build would succeed, yet the call returns EAI_SYSTEM, not 0, stores no
    record and changes nothing. *)
Lemma linux_getaddrinfo_without_resolver :
  is_localhost_domain Sample.app = 1 /\
  hints_want_inet6 Linux None = false /\
  fst (make_localhost_result Linux LittleEndian Sample.port_8080 None Sample.quiet)
    = Some (Sample.loopback_8080 Linux) /\
  Linux.getaddrinfo Sample.bare_host Sample.app Sample.port_8080 None 1%positive
    Sample.fresh_linux
    = (Linux.EAI_SYSTEM, Sample.fresh_linux) /\
  Linux.EAI_SYSTEM <> 0 /\
  trace (Linux.process Sample.fresh_linux) = [].
Proof. repeat split; try (vm_compute; reflexivity). discriminate. Qed.

(** C2, amended.  The macOS hook, and the Linux override whenever it holds
    or finds the real resolver: for a reserved hostname, hints that do not
    ask for AF_INET6 and a successful build, the call returns 0, stores the
    built record through [res] and makes no call of the real resolver; in
    every other case it calls the real resolver once with the arguments it
    was given and returns that call's value.  The Linux override that finds
    no real resolver returns EAI_SYSTEM and does neither: it calls nothing,
    stores nothing and allocates nothing. *)
Theorem sync_hook_synthesize_or_forward :
  forall e node service hints res,
    (forall st r,
        is_localhost_domain node = 1 ->
        hints_want_inet6 Darwin hints = false ->
        fst (make_localhost_result Darwin (host_order e) service hints
               (Dylib.process st)) = Some r ->
        let out := Dylib.hooked_getaddrinfo e node service hints res st in
        fst out = 0 /\
        trace (Dylib.process (snd out)) = trace (Dylib.process st) ++ [Store_res res r])
    /\
    (forall st,
        is_localhost_domain node = 0 \/
        hints_want_inet6 Darwin hints = true \/
        fst (make_localhost_result Darwin (host_order e) service hints
               (Dylib.process st)) = None ->
        let out := Dylib.hooked_getaddrinfo e node service hints res st in
        fst out = real_getaddrinfo_result e NULL node service hints res /\
        trace (Dylib.process (snd out)) =
          trace (Dylib.process st) ++ [Call_getaddrinfo NULL node service hints res])
    /\
    (forall st r,
        Linux.located e st <> NULL ->
        is_localhost_domain node = 1 ->
        hints_want_inet6 Linux hints = false ->
        fst (make_localhost_result Linux (host_order e) service hints
               (Linux.process st)) = Some r ->
        let out := Linux.getaddrinfo e node service hints res st in
        fst out = 0 /\
        trace (Linux.process (snd out)) = trace (Linux.process st) ++ [Store_res res r])
    /\
    (forall st,
        Linux.located e st <> NULL ->
        is_localhost_domain node = 0 \/
        hints_want_inet6 Linux hints = true \/
        fst (make_localhost_result Linux (host_order e) service hints
               (Linux.process st)) = None ->
        let out := Linux.getaddrinfo e node service hints res st in
        fst out =
          real_getaddrinfo_result e (Linux.located e st) node service hints res /\
        trace (Linux.process (snd out)) =
          trace (Linux.process st) ++
          [Call_getaddrinfo (Linux.located e st) node service hints res])
    /\
    (forall st,
        Linux.located e st = NULL ->
        let out := Linux.getaddrinfo e node service hints res st in
        fst out = Linux.EAI_SYSTEM /\
        trace (Linux.process (snd out)) = trace (Linux.process st) /\
        calloc_plan (Linux.process (snd out)) = calloc_plan (Linux.process st)).
Proof.
  intros e node service hints res. repeat apply conj.
  - intros st r Hres H6 Hb.
    destruct (dylib_sync_synthetic e node service hints res st r Hres H6 Hb)
      as (H1 & H2 & _). auto.
  - intros st H.
    destruct (dylib_sync_forward e node service hints res st H) as (H1 & H2 & _). auto.
  - intros st r Hloc Hres H6 Hb.
    destruct (linux_sync_synthetic e node service hints res st r Hloc Hres H6 Hb)
      as (H1 & H2 & _). auto.
  - intros st Hloc H.
    destruct (linux_sync_forward e node service hints res st Hloc H)
      as (H1 & H2 & _). auto.
  - intros st Hloc.
    destruct (linux_sync_unavailable e node service hints res st Hloc)
      as (H1 & H2 & _).
    pose proof (linux_sync_unavailable_plan e node service hints res st Hloc).
    auto.
Qed.

Lemma sync_hook_synthesize_or_forward_witness :
  (fst (Dylib.hooked_getaddrinfo Sample.host Sample.app Sample.port_8080 None
          1%positive (Dylib.initial Sample.quiet)) = 0 /\
   trace (Dylib.process
            (snd (Dylib.hooked_getaddrinfo Sample.host Sample.app Sample.port_8080
                    None 1%positive (Dylib.initial Sample.quiet))))
     = [Store_res 1%positive (Sample.loopback_8080 Darwin)])
  /\
  (fst (Linux.getaddrinfo Sample.host Sample.elsewhere Sample.port_8080 None
          1%positive Sample.fresh_linux) = 8 /\
   trace (Linux.process
            (snd (Linux.getaddrinfo Sample.host Sample.elsewhere Sample.port_8080
                    None 1%positive Sample.fresh_linux)))
     = [Call_getaddrinfo (Addr 4096) Sample.elsewhere Sample.port_8080 None
          1%positive]).
Proof.
  pose proof (sync_hook_synthesize_or_forward Sample.host Sample.app
                Sample.port_8080 None 1%positive) as (Hsyn & _).
  pose proof (sync_hook_synthesize_or_forward Sample.host Sample.elsewhere
                Sample.port_8080 None 1%positive) as (_ & _ & _ & Hfwd & _).
  split.
  - apply (Hsyn (Dylib.initial Sample.quiet) (Sample.loopback_8080 Darwin));
      vm_compute; reflexivity.
  - apply (Hfwd Sample.fresh_linux).
    + vm_compute. discriminate.
    + left. vm_compute. reflexivity.
Defined.

Lemma field_equal_refl (a : addrinfo) : field_equal a a.
Proof. repeat split. Qed.

(** C9.  Two calls of a synchronous hook with the same reserved hostname,
    service and hints (not asking for AF_INET6), both with memory for the
    record (and, on Linux, with the real resolver at hand), whatever else
    the state of the process at each call, so also one call after the
    other: each returns 0 and stores a record, and the two records are equal
    in family, address and port, flags, socket type, protocol, length,
    canonical name and next. *)
Theorem sync_hook_records_field_equal :
  forall e node service hints res1 res2,
    is_localhost_domain node = 1 ->
    (forall st1 st2,
        hints_want_inet6 Darwin hints = false ->
        allocations_succeed (Dylib.process st1) = true ->
        allocations_succeed (Dylib.process st2) = true ->
        let out1 := Dylib.hooked_getaddrinfo e node service hints res1 st1 in
        let out2 := Dylib.hooked_getaddrinfo e node service hints res2 st2 in
        exists r1 r2,
          (fst out1 = 0 /\
           trace (Dylib.process (snd out1))
             = trace (Dylib.process st1) ++ [Store_res res1 r1]) /\
          (fst out2 = 0 /\
           trace (Dylib.process (snd out2))
             = trace (Dylib.process st2) ++ [Store_res res2 r2]) /\
          field_equal r1 r2)
    /\
    (forall st1 st2,
        hints_want_inet6 Linux hints = false ->
        Linux.located e st1 <> NULL ->
        Linux.located e st2 <> NULL ->
        allocations_succeed (Linux.process st1) = true ->
        allocations_succeed (Linux.process st2) = true ->
        let out1 := Linux.getaddrinfo e node service hints res1 st1 in
        let out2 := Linux.getaddrinfo e node service hints res2 st2 in
        exists r1 r2,
          (fst out1 = 0 /\
           trace (Linux.process (snd out1))
             = trace (Linux.process st1) ++ [Store_res res1 r1]) /\
          (fst out2 = 0 /\
           trace (Linux.process (snd out2))
             = trace (Linux.process st2) ++ [Store_res res2 r2]) /\
          field_equal r1 r2).
Proof.
  intros e node service hints res1 res2 Hres. split.
  - intros st1 st2 H6 Ha1 Ha2.
    apply (make_localhost_result_some_iff Darwin (host_order e) service hints)
      in Ha1, Ha2.
    destruct Ha1 as [r1 Hb1], Ha2 as [r2 Hb2].
    destruct (dylib_sync_synthetic e node service hints res1 st1 r1 Hres H6 Hb1)
      as (H1 & H1' & _).
    destruct (dylib_sync_synthetic e node service hints res2 st2 r2 Hres H6 Hb2)
      as (H2 & H2' & _).
    exists r1, r2.
    split; [split; assumption|]. split; [split; assumption|].
    rewrite (make_localhost_result_deterministic _ _ _ _ _ _ _ _ Hb1 Hb2).
    apply field_equal_refl.
  - intros st1 st2 H6 Hl1 Hl2 Ha1 Ha2.
    apply (make_localhost_result_some_iff Linux (host_order e) service hints)
      in Ha1, Ha2.
    destruct Ha1 as [r1 Hb1], Ha2 as [r2 Hb2].
    destruct (linux_sync_synthetic e node service hints res1 st1 r1 Hl1 Hres H6 Hb1)
      as (H1 & H1' & _).
    destruct (linux_sync_synthetic e node service hints res2 st2 r2 Hl2 Hres H6 Hb2)
      as (H2 & H2' & _).
    exists r1, r2.
    split; [split; assumption|]. split; [split; assumption|].
    rewrite (make_localhost_result_deterministic _ _ _ _ _ _ _ _ Hb1 Hb2).
    apply field_equal_refl.
Qed.

(** Two calls in a row on macOS: the second runs in the state the first
    leaves. *)
Lemma sync_hook_records_field_equal_witness :
  exists r1 r2,
    (fst (Dylib.hooked_getaddrinfo Sample.host Sample.app Sample.port_8080
            (Some Sample.udp_hints) 1%positive (Dylib.initial Sample.quiet)) = 0 /\
     trace (Dylib.process
              (snd (Dylib.hooked_getaddrinfo Sample.host Sample.app
                      Sample.port_8080 (Some Sample.udp_hints) 1%positive
                      (Dylib.initial Sample.quiet))))
       = trace (Dylib.process (Dylib.initial Sample.quiet))
         ++ [Store_res 1%positive r1]) /\
    (fst (Dylib.hooked_getaddrinfo Sample.host Sample.app Sample.port_8080
            (Some Sample.udp_hints) 2%positive
            (snd (Dylib.hooked_getaddrinfo Sample.host Sample.app
                    Sample.port_8080 (Some Sample.udp_hints) 1%positive
                    (Dylib.initial Sample.quiet)))) = 0 /\
     trace (Dylib.process
              (snd (Dylib.hooked_getaddrinfo Sample.host Sample.app
                      Sample.port_8080 (Some Sample.udp_hints) 2%positive
                      (snd (Dylib.hooked_getaddrinfo Sample.host Sample.app
                              Sample.port_8080 (Some Sample.udp_hints) 1%positive
                              (Dylib.initial Sample.quiet))))))
       = trace (Dylib.process
                  (snd (Dylib.hooked_getaddrinfo Sample.host Sample.app
                          Sample.port_8080 (Some Sample.udp_hints) 1%positive
                          (Dylib.initial Sample.quiet))))
         ++ [Store_res 2%positive r2]) /\
    field_equal r1 r2.
Proof.
  apply (proj1 (sync_hook_records_field_equal Sample.host Sample.app
                  Sample.port_8080 (Some Sample.udp_hints) 1%positive 2%positive
                  ltac:(vm_compute; reflexivity))
           (Dylib.initial Sample.quiet)
           (snd (Dylib.hooked_getaddrinfo Sample.host Sample.app
                   Sample.port_8080 (Some Sample.udp_hints) 1%positive
                   (Dylib.initial Sample.quiet))));
    vm_compute; reflexivity.
Defined.

(* ================================================================= *)
(** ** The asynchronous hook *)

Lemma dylib_async_synthetic e port node service hints callback context st r :
  is_localhost_domain node = 1 ->
  fst (make_localhost_result Darwin (host_order e) service hints (Dylib.process st))
    = Some r ->
  let out :=
    Dylib.hooked_getaddrinfo_async_start e port node service hints callback context st in
  fst out = 0 /\
  trace (Dylib.process (snd out)) =
    trace (Dylib.process st)
    ++ callback_event callback 0 (Some r) context ++ port_store port /\
  Dylib.real_async_start (snd out) = Dylib.real_async_start st.
Proof.
  intros Hres Hb.
  world_cases st; revert Hb; run_hook; rewrite Hres; cbv [Z.eqb]; intro Hb;
    try discriminate Hb; injection Hb as <-;
    destruct callback, port; cbn; rewrite ?app_nil_r, <- ?app_assoc; auto.
Qed.

Lemma dylib_async_real e port node service hints callback context st :
  is_localhost_domain node = 0 \/
  fst (make_localhost_result Darwin (host_order e) service hints (Dylib.process st))
    = None ->
  let out :=
    Dylib.hooked_getaddrinfo_async_start e port node service hints callback context st in
  let real := Dylib.real_async_start st in
  (if is_null real
   then fst out = -1 /\
        trace (Dylib.process (snd out)) =
          trace (Dylib.process st) ++ callback_event callback (-1) None context
   else fst out = real_async_start_result e real port node service hints callback context /\
        trace (Dylib.process (snd out)) =
          trace (Dylib.process st)
          ++ [Call_async_start real port node service hints callback context]) /\
  Dylib.real_async_start (snd out) = real.
Proof.
  intros H.
  destruct (is_localhost_domain_bool node) as [Hres|Hres].
  - destruct H as [H|H]; [congruence|].
    world_cases st; revert H; run_hook; rewrite Hres; cbv [Z.eqb]; intro H;
      try discriminate H; destruct reg, callback; cbn; rewrite ?app_nil_r; auto.
  - world_cases st; run_hook; rewrite Hres; cbv [Z.eqb];
      destruct reg, callback; cbn; rewrite ?app_nil_r; auto.
Qed.

Lemma callbacks_app (t u : list event) : callbacks (t ++ u) = (callbacks t + callbacks u)%nat.
Proof. unfold callbacks. now rewrite filter_app, length_app. Qed.

Lemma real_calls_app (t u : list event) :
  real_calls (t ++ u) = (real_calls t + real_calls u)%nat.
Proof. unfold real_calls. now rewrite filter_app, length_app. Qed.

Lemma real_calls_port_store (port : ptr) : real_calls (port_store port) = 0%nat.
Proof. now destruct port. Qed.

Lemma callbacks_port_store (port : ptr) : callbacks (port_store port) = 0%nat.
Proof. now destruct port. Qed.

(** C7.  A call of the replacement entry point with a reserved hostname and
    a non-null callback for which the record is built returns 0, and what it
    does before returning is: one call [callback(0, record, context)] with
    the built record, then the store of 0 through [port] (when [port] is not
    null); the callback is called once and the real entry point not at
    all. *)
Theorem async_hook_synthetic_callback :
  forall e port node service hints callback context st r,
    is_localhost_domain node = 1 ->
    callback <> NULL ->
    fst (make_localhost_result Darwin (host_order e) service hints (Dylib.process st))
      = Some r ->
    let out :=
      Dylib.hooked_getaddrinfo_async_start e port node service hints callback context st in
    fst out = 0 /\
    trace (Dylib.process (snd out)) =
      trace (Dylib.process st)
      ++ Call_callback callback 0 (Some r) context :: port_store port /\
    (port <> NULL -> port_store port = [Store_port port 0]) /\
    callbacks (trace (Dylib.process (snd out)))
      = (callbacks (trace (Dylib.process st)) + 1)%nat /\
    real_calls (trace (Dylib.process (snd out)))
      = real_calls (trace (Dylib.process st)).
Proof.
  intros e port node service hints callback context st r Hres Hcb Hb.
  destruct (dylib_async_synthetic e port node service hints callback context st r
              Hres Hb) as (H1 & H2 & _).
  assert (callback_event callback 0 (Some r) context
          = [Call_callback callback 0 (Some r) context]) as Hev
    by (destruct callback; [contradiction | reflexivity]).
  rewrite Hev in H2. cbv zeta. rewrite H2.
  split; [exact H1|]. split; [reflexivity|].
  split; [destruct port; [contradiction | reflexivity]|].
  rewrite callbacks_app, real_calls_app.
  change (Call_callback callback 0 (Some r) context :: port_store port)
    with ([Call_callback callback 0 (Some r) context] ++ port_store port).
  rewrite callbacks_app, real_calls_app, callbacks_port_store, real_calls_port_store.
  split; simpl; lia.
Qed.

Lemma async_hook_synthetic_callback_witness :
  fst (Dylib.hooked_getaddrinfo_async_start Sample.host (Addr 7) Sample.app
         Sample.port_8080 None (Addr 5) (Addr 6) Sample.captured) = 0 /\
  trace (Dylib.process
           (snd (Dylib.hooked_getaddrinfo_async_start Sample.host (Addr 7)
                   Sample.app Sample.port_8080 None (Addr 5) (Addr 6)
                   Sample.captured)))
    = [Call_callback (Addr 5) 0 (Some (Sample.loopback_8080 Darwin)) (Addr 6);
       Store_port (Addr 7) 0].
Proof.
  destruct (async_hook_synthetic_callback Sample.host (Addr 7) Sample.app
              Sample.port_8080 None (Addr 5) (Addr 6) Sample.captured
              (Sample.loopback_8080 Darwin)
              ltac:(vm_compute; reflexivity) ltac:(discriminate)
              ltac:(vm_compute; reflexivity)) as (H1 & H2 & _).
  split; [exact H1 | exact H2].
Defined.

(** C8 fails as stated at a call with a null callback: the hostname is not
    reserved and nothing is captured, the call returns -1, and no callback
    is called (the trace stays empty). *)
Lemma async_hook_null_callback_not_called :
  is_localhost_domain Sample.elsewhere = 0 /\
  Dylib.real_async_start (Dylib.initial Sample.quiet) = NULL /\
  Dylib.hooked_getaddrinfo_async_start Sample.host (Addr 7) Sample.elsewhere
    Sample.port_8080 None NULL (Addr 6) (Dylib.initial Sample.quiet)
    = (-1, Dylib.initial Sample.quiet) /\
  callbacks (trace (Dylib.process (Dylib.initial Sample.quiet))) = 0%nat.
Proof. repeat split. Qed.

(** C8, amended.  A call of the replacement entry point that produces no
    synthetic record (the hostname is not reserved, or the build fails)
    while no real entry point is captured returns -1 without calling a real
    entry point; if the callback is not null it is called once, as
    [callback(-1, NULL, context)], and if it is null nothing is called. *)
Theorem async_hook_degraded_fallback :
  forall e port node service hints callback context st,
    is_localhost_domain node = 0 \/
    fst (make_localhost_result Darwin (host_order e) service hints (Dylib.process st))
      = None ->
    Dylib.real_async_start st = NULL ->
    let out :=
      Dylib.hooked_getaddrinfo_async_start e port node service hints callback context st in
    fst out = -1 /\
    (callback <> NULL ->
       trace (Dylib.process (snd out)) =
         trace (Dylib.process st) ++ [Call_callback callback (-1) None context]) /\
    (callback = NULL ->
       trace (Dylib.process (snd out)) = trace (Dylib.process st)) /\
    real_calls (trace (Dylib.process (snd out)))
      = real_calls (trace (Dylib.process st)).
Proof.
  intros e port node service hints callback context st H Hreg.
  destruct (dylib_async_real e port node service hints callback context st H)
    as (Hr & _).
  rewrite Hreg in Hr. simpl in Hr. destruct Hr as (H1 & H2).
  cbv zeta. rewrite H2. split; [exact H1|].
  destruct callback as [|a].
  - change (callback_event NULL (-1) None context) with (@nil event).
    rewrite app_nil_r. split; [congruence|]. split; reflexivity.
  - change (callback_event (Addr a) (-1) None context)
      with [Call_callback (Addr a) (-1) None context].
    split; [reflexivity|]. split; [discriminate|].
    rewrite real_calls_app.
    change (real_calls [Call_callback (Addr a) (-1) None context]) with 0%nat.
    lia.
Qed.

Lemma async_hook_degraded_fallback_witness :
  fst (Dylib.hooked_getaddrinfo_async_start Sample.host (Addr 7) Sample.elsewhere
         Sample.port_8080 None (Addr 5) (Addr 6) (Dylib.initial Sample.quiet)) = -1 /\
  trace (Dylib.process
           (snd (Dylib.hooked_getaddrinfo_async_start Sample.host (Addr 7)
                   Sample.elsewhere Sample.port_8080 None (Addr 5) (Addr 6)
                   (Dylib.initial Sample.quiet))))
    = [Call_callback (Addr 5) (-1) None (Addr 6)].
Proof.
  destruct (async_hook_degraded_fallback Sample.host (Addr 7) Sample.elsewhere
              Sample.port_8080 None (Addr 5) (Addr 6) (Dylib.initial Sample.quiet)
              ltac:(left; vm_compute; reflexivity) ltac:(reflexivity))
    as (H1 & H2 & _).
  split; [exact H1 | exact (H2 ltac:(discriminate))].
Defined.

(** C3.  The asynchronous hook does not look at the address family of the
    hints.  Called for a reserved hostname with hints of family AF_INET6,
    in a process where the real entry point is captured, it builds the IPv4
    record, hands it to the callback and returns 0 without calling the real
    entry point; the synchronous hook of the same file, on the same
    arguments, forwards to the real resolver. *)
Theorem async_hook_ignores_inet6_hints :
  is_localhost_domain Sample.app = 1 /\
  hints_want_inet6 Darwin (Some Sample.inet6_hints) = true /\
  Dylib.hooked_getaddrinfo_async_start Sample.host (Addr 7) Sample.app
    Sample.port_8080 (Some Sample.inet6_hints) (Addr 5) (Addr 6) Sample.captured
  = (0, {| Dylib.real_async_start := Addr 4096;
           Dylib.process :=
             {| calloc_plan := [];
                trace := [Call_callback (Addr 5) 0
                            (Some (Sample.loopback_8080 Darwin)) (Addr 6);
                          Store_port (Addr 7) 0];
                LOHOST_DEBUG := None; stderr := [] |} |}) /\
  ai_family (Sample.loopback_8080 Darwin) = AF_INET /\
  Dylib.hooked_getaddrinfo Sample.host Sample.app Sample.port_8080
    (Some Sample.inet6_hints) 1%positive Sample.captured
  = (8, {| Dylib.real_async_start := Addr 4096;
           Dylib.process :=
             {| calloc_plan := [];
                trace := [Call_getaddrinfo NULL Sample.app Sample.port_8080
                            (Some Sample.inet6_hints) 1%positive];
                LOHOST_DEBUG := None; stderr := [] |} |}).
Proof. repeat split. Qed.

(* ================================================================= *)
(** ** The lookup hook and the capture register *)

Lemma is_async_symbol_text (symbol : cstring) :
  Dylib.is_async_symbol (Some symbol) = true <->
  c_str symbol = lit "getaddrinfo_async_start".
Proof.
  unfold Dylib.is_async_symbol. rewrite Z.eqb_eq, strcmp_zero_iff. reflexivity.
Qed.

Lemma dylib_dlsym_result e handle symbol st :
  fst (Dylib.hooked_dlsym e handle symbol st) =
    if Dylib.is_async_symbol symbol then Dylib.Hooked_getaddrinfo_async_start
    else Dylib.Real_symbol (dlsym e handle symbol).
Proof.
  unfold Dylib.hooked_dlsym.
  destruct (Dylib.is_async_symbol symbol); [|reflexivity].
  world_cases st; destruct reg, (dlsym e handle symbol); reflexivity.
Qed.

Lemma dylib_dlsym_register e handle symbol st :
  Dylib.real_async_start (snd (Dylib.hooked_dlsym e handle symbol st)) =
    if Dylib.is_async_symbol symbol && negb (is_null (dlsym e handle symbol))
       && is_null (Dylib.real_async_start st)
    then dlsym e handle symbol
    else Dylib.real_async_start st.
Proof.
  unfold Dylib.hooked_dlsym.
  destruct (Dylib.is_async_symbol symbol); [|reflexivity].
  world_cases st; destruct reg, (dlsym e handle symbol); reflexivity.
Qed.

(** The lookup hook calls nothing but the real lookup and leaves the
    allocator alone. *)
Lemma dylib_dlsym_frame e handle symbol st :
  let st' := snd (Dylib.hooked_dlsym e handle symbol st) in
  trace (Dylib.process st') = trace (Dylib.process st) /\
  calloc_plan (Dylib.process st') = calloc_plan (Dylib.process st).
Proof.
  unfold Dylib.hooked_dlsym.
  destruct (Dylib.is_async_symbol symbol); [|split; reflexivity].
  world_cases st; destruct reg, (dlsym e handle symbol); split; reflexivity.
Qed.

Lemma dylib_sync_register e node service hints res st :
  Dylib.real_async_start (snd (Dylib.hooked_getaddrinfo e node service hints res st)) =
  Dylib.real_async_start st.
Proof.
  destruct (is_localhost_domain_bool node) as [Hres|Hres];
    [|now apply dylib_sync_forward; left].
  destruct (hints_want_inet6 Darwin hints) eqn:H6;
    [now apply dylib_sync_forward; right; left|].
  destruct (fst (make_localhost_result Darwin (host_order e) service hints
                   (Dylib.process st))) as [r|] eqn:Hb.
  - now apply (dylib_sync_synthetic e node service hints res st r).
  - now apply dylib_sync_forward; right; right.
Qed.

Lemma dylib_async_register e port node service hints callback context st :
  Dylib.real_async_start
    (snd (Dylib.hooked_getaddrinfo_async_start e port node service hints
            callback context st)) =
  Dylib.real_async_start st.
Proof.
  destruct (is_localhost_domain_bool node) as [Hres|Hres];
    [|now apply dylib_async_real; left].
  destruct (fst (make_localhost_result Darwin (host_order e) service hints
                   (Dylib.process st))) as [r|] eqn:Hb.
  - now apply (dylib_async_synthetic e port node service hints callback context st r).
  - now apply dylib_async_real; right.
Qed.

(** The register after one call into the module. *)
Lemma dylib_step_register st c :
  Dylib.real_async_start (Dylib.step st c) =
    match c with
    | Dylib.Dlsym e handle symbol =>
        if Dylib.is_async_symbol symbol && negb (is_null (dlsym e handle symbol))
           && is_null (Dylib.real_async_start st)
        then dlsym e handle symbol
        else Dylib.real_async_start st
    | _ => Dylib.real_async_start st
    end.
Proof.
  destruct c; simpl.
  - apply dylib_dlsym_register.
  - apply dylib_sync_register.
  - apply dylib_async_register.
Qed.

Lemma dylib_step_keeps st c :
  Dylib.real_async_start st <> NULL ->
  Dylib.real_async_start (Dylib.step st c) = Dylib.real_async_start st.
Proof.
  intro H. rewrite dylib_step_register. destruct c; try reflexivity.
  destruct (Dylib.real_async_start st); [contradiction|].
  simpl. now rewrite andb_false_r.
Qed.

Lemma dylib_run_keeps cs :
  forall st,
    Dylib.real_async_start st <> NULL ->
    Dylib.real_async_start (Dylib.run cs st) = Dylib.real_async_start st.
Proof.
  induction cs as [|c cs IH]; intros st H; [reflexivity|].
  change (Dylib.run (c :: cs) st) with (Dylib.run cs (Dylib.step st c)).
  rewrite IH; rewrite dylib_step_keeps; auto.
Qed.

Lemma dylib_run_first_capture cs :
  forall st,
    Dylib.real_async_start st = NULL ->
    Dylib.real_async_start (Dylib.run cs st) = Dylib.first_capture cs.
Proof.
  induction cs as [|c cs IH]; intros st H; [exact H|].
  change (Dylib.run (c :: cs) st) with (Dylib.run cs (Dylib.step st c)).
  pose proof (dylib_step_register st c) as Hs. rewrite H in Hs.
  destruct c as [e handle symbol | |]; simpl in Hs |- *;
    try (apply IH; exact Hs).
  rewrite andb_true_r in Hs.
  destruct (_ && _) eqn:Hc.
  - rewrite dylib_run_keeps; rewrite Hs; [reflexivity|].
    apply andb_prop in Hc. destruct Hc as [_ Hc].
    destruct (dlsym e handle symbol); [discriminate | congruence].
  - apply IH. exact Hs.
Qed.

(** C4.  Along any sequence of calls into the module (lookups through the
    hook, with whatever the real lookup answers each time, and calls of the
    two resolver hooks): once the register holds a non-null address, no
    later call changes it; and from the start of the process it always
    holds the first non-null address a lookup of the asynchronous resolver's
    symbol obtained (null while there was none). *)
Theorem real_async_start_write_once :
  forall (later : list Dylib.call),
    (forall st,
        Dylib.real_async_start st <> NULL ->
        Dylib.real_async_start (Dylib.run later st) = Dylib.real_async_start st)
    /\
    (forall s,
        Dylib.real_async_start (Dylib.run later (Dylib.initial s))
          = Dylib.first_capture later).
Proof.
  intro later. split.
  - intros st H. now apply dylib_run_keeps.
  - intro s. now apply dylib_run_first_capture.
Qed.

(** Two lookups in a row that find two different addresses. *)
Lemma real_async_start_write_once_witness :
  Dylib.real_async_start
    (Dylib.run [Dylib.Dlsym Sample.later_host NULL (Some Dylib.async_symbol)]
       (Dylib.run [Dylib.Dlsym Sample.host NULL (Some Dylib.async_symbol)]
          (Dylib.initial Sample.quiet)))
  = Addr 4096.
Proof.
  exact (proj1 (real_async_start_write_once
                  [Dylib.Dlsym Sample.later_host NULL (Some Dylib.async_symbol)])
           (Dylib.run [Dylib.Dlsym Sample.host NULL (Some Dylib.async_symbol)]
              (Dylib.initial Sample.quiet))
           ltac:(vm_compute; discriminate)).
Defined.

(** C10.  A lookup through the hook of a symbol whose name is exactly
    "getaddrinfo_async_start" returns the address of the replacement entry
    point, whatever the real lookup answers.  When the real lookup answers
    null the register keeps its value and nothing is called; if the register
    was unset it stays unset, and an asynchronous call made then that
    produces no synthetic record returns -1 after at most the call
    [callback(-1, NULL, context)]. *)
Theorem hooked_dlsym_async_symbol :
  forall e handle symbol st,
    c_str symbol = lit "getaddrinfo_async_start" ->
    let out := Dylib.hooked_dlsym e handle (Some symbol) st in
    fst out = Dylib.Hooked_getaddrinfo_async_start /\
    (dlsym e handle (Some symbol) = NULL ->
       Dylib.real_async_start (snd out) = Dylib.real_async_start st /\
       trace (Dylib.process (snd out)) = trace (Dylib.process st) /\
       (Dylib.real_async_start st = NULL ->
          Dylib.real_async_start (snd out) = NULL /\
          forall e' port node service hints callback context,
            is_localhost_domain node = 0 \/
            fst (make_localhost_result Darwin (host_order e') service hints
                   (Dylib.process (snd out))) = None ->
            let out' :=
              Dylib.hooked_getaddrinfo_async_start e' port node service hints
                callback context (snd out) in
            fst out' = -1 /\
            trace (Dylib.process (snd out')) =
              trace (Dylib.process (snd out))
              ++ callback_event callback (-1) None context)).
Proof.
  intros e handle symbol st Hsym out.
  apply is_async_symbol_text in Hsym.
  pose proof (dylib_dlsym_result e handle (Some symbol) st) as Hres.
  pose proof (dylib_dlsym_register e handle (Some symbol) st) as Hreg.
  pose proof (dylib_dlsym_frame e handle (Some symbol) st) as (Htr & _).
  fold out in Hres, Hreg, Htr. rewrite Hsym in Hres, Hreg.
  split; [exact Hres|].
  intro Hnull. rewrite Hnull in Hreg. simpl in Hreg.
  split; [exact Hreg|]. split; [exact Htr|].
  intro Hunset. split; [congruence|].
  intros e' port node service hints callback context H.
  destruct (dylib_async_real e' port node service hints callback context (snd out) H)
    as (Hr & _).
  rewrite Hreg, Hunset in Hr. exact Hr.
Qed.

Lemma hooked_dlsym_async_symbol_witness :
  fst (Dylib.hooked_dlsym Sample.bare_host NULL (Some Dylib.async_symbol)
         (Dylib.initial Sample.quiet))
    = Dylib.Hooked_getaddrinfo_async_start /\
  Dylib.real_async_start
    (snd (Dylib.hooked_dlsym Sample.bare_host NULL (Some Dylib.async_symbol)
            (Dylib.initial Sample.quiet))) = NULL /\
  fst (Dylib.hooked_getaddrinfo_async_start Sample.host (Addr 7) Sample.elsewhere
         Sample.port_8080 None (Addr 5) (Addr 6)
         (snd (Dylib.hooked_dlsym Sample.bare_host NULL (Some Dylib.async_symbol)
                 (Dylib.initial Sample.quiet)))) = -1.
Proof.
  destruct (hooked_dlsym_async_symbol Sample.bare_host NULL Dylib.async_symbol
              (Dylib.initial Sample.quiet) ltac:(reflexivity))
    as (H1 & H2).
  destruct (H2 ltac:(reflexivity)) as (_ & _ & H3).
  destruct (H3 ltac:(reflexivity)) as (H4 & H5).
  split; [exact H1|]. split; [exact H4|].
  exact (proj1 (H5 Sample.host (Addr 7) Sample.elsewhere Sample.port_8080 None
                  (Addr 5) (Addr 6) ltac:(left; vm_compute; reflexivity))).
Defined.

(* ================================================================= *)
(** ** Further properties of the classifier *)

Lemma c_str_nul_free (s : list byte) : nul_free s -> c_str s = s.
Proof.
  induction 1 as [|c s Hc _ IH]; [reflexivity|].
  simpl. apply is_nul_false in Hc. rewrite Hc, IH. reflexivity.
Qed.

Lemma c_str_app_nul_free (s t : list byte) :
  nul_free s -> c_str (s ++ t) = s ++ c_str t.
Proof.
  induction 1 as [|c s Hc _ IH]; [reflexivity|].
  simpl. apply is_nul_false in Hc. rewrite Hc, IH. reflexivity.
Qed.

(** X1.  Every name made of a NUL-free prefix (empty or not, dots or not)
    followed by ".localhost" is reserved, whatever bytes lie behind the
    terminator. *)
Theorem is_localhost_domain_any_prefix :
  forall prefix junk : list byte,
    nul_free prefix ->
    is_localhost_domain (Some (prefix ++ lit ".localhost")) = 1 /\
    is_localhost_domain (Some (prefix ++ lit ".localhost" ++ x00 :: junk)) = 1.
Proof.
  intros prefix junk Hp.
  assert (forall tail, c_str tail = lit ".localhost" ->
                       is_localhost_domain (Some (prefix ++ tail)) = 1) as H.
  { intros tail Ht. apply is_localhost_domain_some.
    rewrite (c_str_app_nul_free _ _ Hp), Ht. unfold trailing.
    rewrite length_app. change (List.length (lit ".localhost")) with 10%nat.
    split; [lia|].
    replace (List.length prefix + 10 - 10)%nat with (List.length prefix + 0)%nat by lia.
    rewrite skipn_app, Nat.add_0_r, skipn_all.
    replace (List.length prefix - List.length prefix)%nat with 0%nat by lia.
    reflexivity. }
  split; apply H; reflexivity.
Qed.

Lemma is_localhost_domain_any_prefix_witness :
  is_localhost_domain (Some (lit "a.b.c" ++ lit ".localhost")) = 1 /\
  is_localhost_domain (Some (lit "a.b.c" ++ lit ".localhost" ++ x00 :: lit "!")) = 1.
Proof.
  apply (is_localhost_domain_any_prefix (lit "a.b.c") (lit "!")).
  repeat constructor; discriminate.
Defined.

(** X2.  A name whose text ends in a dot, such as the absolute form
    "app.localhost.", is never reserved. *)
Theorem is_localhost_domain_trailing_dot :
  forall s body : list byte,
    c_str s = body ++ lit "." ->
    is_localhost_domain (Some s) = 0.
Proof.
  intros s body Hs.
  destruct (is_localhost_domain_bool (Some s)) as [H|H]; [exfalso | exact H].
  apply is_localhost_domain_some in H. destruct H as [_ H].
  unfold trailing in H.
  pose proof (firstn_skipn (List.length (c_str s) - 10) (c_str s)) as Hsplit.
  rewrite H, Hs in Hsplit.
  change localhost_suffix with (lit ".localhos" ++ lit "t") in Hsplit.
  rewrite app_assoc in Hsplit.
  apply app_inj_tail in Hsplit. destruct Hsplit as [_ Hlast]. discriminate.
Qed.

Lemma is_localhost_domain_trailing_dot_witness :
  is_localhost_domain (Some (lit "app.localhost.")) = 0.
Proof.
  apply (is_localhost_domain_trailing_dot (lit "app.localhost.") (lit "app.localhost")).
  reflexivity.
Defined.

(* ================================================================= *)
(** ** Further properties of the builder *)

(** X3.  The builder returns null exactly when an allocation fails.  It asks
    for the payload only after it has the record: a failed first allocation
    uses up one allocation, anything else two.  It calls nothing and writes
    no log. *)
Theorem make_localhost_result_allocation :
  forall o bo service hints s,
    let out := make_localhost_result o bo service hints s in
    (fst out = None <-> allocations_succeed s = false) /\
    calloc_plan (snd out) =
      match calloc_plan s with
      | false :: plan => plan
      | _ => skipn 2 (calloc_plan s)
      end /\
    trace (snd out) = trace s /\
    LOHOST_DEBUG (snd out) = LOHOST_DEBUG s /\
    stderr (snd out) = stderr s.
Proof.
  intros o bo service hints [plan tr dbg err].
  unfold allocations_succeed.
  destruct plan as [|[] [|[] plan]];
    cbv [make_localhost_result bind ret calloc free calloc_plan trace
         LOHOST_DEBUG stderr fst snd skipn];
    repeat split; try reflexivity; intro H; discriminate H.
Qed.

(** X4.  A record the builder returns is laid out for its caller: the
    length is [sizeof(struct sockaddr_in)], there is no canonical name,
    neither the socket type nor the protocol is left at 0, and on macOS the
    payload's [sin_len] equals the record's length. *)
Theorem make_localhost_result_layout :
  forall o bo service hints s ai,
    fst (make_localhost_result o bo service hints s) = Some ai ->
    ai_addrlen ai = sizeof_sockaddr_in /\
    ai_canonname ai = None /\
    ai_socktype ai <> 0 /\
    ai_protocol ai <> 0 /\
    exists sa,
      ai_addr ai = Some (Sockaddr_in sa) /\
      List.length (sin_addr sa) = 4%nat /\
      (o = Darwin -> sin_len sa = ai_addrlen ai).
Proof.
  intros o bo service hints s ai H.
  builder_cases s H.
  all: split; [reflexivity|]; split; [reflexivity|].
  all: split;
    [destruct hints as [h|]; [|discriminate];
     cbn [ai_socktype ai_protocol set_ai_flags set_ai_family set_ai_socktype
          set_ai_protocol set_ai_addrlen set_ai_addr set_ai_canonname
          set_ai_next zero_addrinfo];
     destruct (ai_socktype h =? 0) eqn:E1, (ai_protocol h =? 0) eqn:E2;
     cbn; rewrite ?E1, ?E2; cbn; try discriminate; now apply Z.eqb_neq|].
  all: split;
    [destruct hints as [h|]; [|discriminate];
     cbn [ai_socktype ai_protocol set_ai_flags set_ai_family set_ai_socktype
          set_ai_protocol set_ai_addrlen set_ai_addr set_ai_canonname
          set_ai_next zero_addrinfo];
     destruct (ai_socktype h =? 0) eqn:E1, (ai_protocol h =? 0) eqn:E2;
     cbn; rewrite ?E1, ?E2; cbn; try discriminate; now apply Z.eqb_neq|].
  all: eexists; split; [reflexivity|].
  all: destruct o, service; split; try reflexivity; try discriminate.
Qed.

Lemma make_localhost_result_layout_witness :
  ai_addrlen Sample.udp_8080 = 16 /\
  ai_socktype Sample.udp_8080 <> 0 /\
  ai_protocol Sample.udp_8080 <> 0.
Proof.
  destruct (make_localhost_result_layout Darwin LittleEndian Sample.port_8080
              (Some Sample.udp_hints) Sample.quiet Sample.udp_8080
              ltac:(vm_compute; reflexivity)) as (H1 & _ & H3 & H4 & _).
  repeat split; assumption.
Defined.

(** X5.  Of the hints the builder reads the flags, the socket type and the
    protocol and nothing else (not the family, nor the pointers): hints that
    agree on the three give the same outcome, and absent hints give what
    all-zero hints give. *)
Theorem make_localhost_result_hints_read :
  forall o bo service s,
    (forall h1 h2,
        ai_flags h1 = ai_flags h2 ->
        ai_socktype h1 = ai_socktype h2 ->
        ai_protocol h1 = ai_protocol h2 ->
        make_localhost_result o bo service (Some h1) s
        = make_localhost_result o bo service (Some h2) s) /\
    make_localhost_result o bo service None s
    = make_localhost_result o bo service (Some zero_addrinfo) s.
Proof.
  intros o bo service [plan tr dbg err]. split.
  - intros h1 h2 Hf Hs Hp.
    unfold make_localhost_result, bind, ret, calloc, free. cbn [calloc_plan].
    destruct plan as [|[] [|[] plan]]; try reflexivity;
      cbn [ai_socktype ai_protocol set_ai_flags set_ai_family set_ai_socktype
           set_ai_protocol zero_addrinfo];
      rewrite Hf, Hs, Hp; reflexivity.
  - destruct plan as [|[] [|[] plan]]; reflexivity.
Qed.

Lemma make_localhost_result_hints_read_witness :
  make_localhost_result Darwin LittleEndian Sample.port_8080
    (Some Sample.inet6_hints) Sample.quiet
  = make_localhost_result Darwin LittleEndian Sample.port_8080
      (Some zero_addrinfo) Sample.quiet.
Proof.
  apply (proj1 (make_localhost_result_hints_read Darwin LittleEndian
                  Sample.port_8080 Sample.quiet)); reflexivity.
Defined.

(* ================================================================= *)
(** ** Further properties of the hooks *)

(** X6.  The synchronous hooks attempt no allocation for a hostname that is
    not reserved or for hints that ask for AF_INET6; and for a hostname that
    is not reserved they write no log line even when LOHOST_DEBUG is set (on
    Linux: once the real resolver is at hand). *)
Theorem sync_hook_forward_without_build :
  forall e node service hints res,
    (forall st,
        is_localhost_domain node = 0 \/ hints_want_inet6 Darwin hints = true ->
        calloc_plan (Dylib.process (snd (Dylib.hooked_getaddrinfo e node service hints res st)))
        = calloc_plan (Dylib.process st)) /\
    (forall st,
        is_localhost_domain node = 0 ->
        stderr (Dylib.process (snd (Dylib.hooked_getaddrinfo e node service hints res st)))
        = stderr (Dylib.process st)) /\
    (forall st,
        is_localhost_domain node = 0 \/ hints_want_inet6 Linux hints = true ->
        calloc_plan (Linux.process (snd (Linux.getaddrinfo e node service hints res st)))
        = calloc_plan (Linux.process st)) /\
    (forall st,
        is_localhost_domain node = 0 ->
        Linux.located e st <> NULL ->
        stderr (Linux.process (snd (Linux.getaddrinfo e node service hints res st)))
        = stderr (Linux.process st)).
Proof.
  intros e node service hints res. repeat apply conj.
  - intros st H.
    destruct (is_localhost_domain_bool node) as [Hres|Hres];
      [|world_cases st; run_hook; rewrite Hres; reflexivity].
    destruct H as [H|H]; [congruence|].
    world_cases st; run_hook; rewrite Hres, H; reflexivity.
  - intros st Hres. world_cases st; run_hook; rewrite Hres; reflexivity.
  - intros st H.
    destruct (is_localhost_domain_bool node) as [Hres|Hres];
      [|linux_cases e st; run_hook; rewrite ?Hdl, ?Hres; reflexivity].
    destruct H as [H|H]; [congruence|].
    linux_cases e st; run_hook; rewrite ?Hdl, ?Hres, ?H; reflexivity.
  - intros st Hres. unfold Linux.located.
    linux_cases e st; run_hook; rewrite ?Hdl, ?Hres; run_hook; intro Hloc;
      try congruence; reflexivity.
Qed.

Lemma sync_hook_forward_without_build_witness :
  calloc_plan
    (Dylib.process
       (snd (Dylib.hooked_getaddrinfo Sample.host Sample.app Sample.port_8080
               (Some Sample.inet6_hints) 1%positive
               {| Dylib.real_async_start := NULL;
                  Dylib.process :=
                    {| calloc_plan := [false]; trace := [];
                       LOHOST_DEBUG := Some []; stderr := [] |} |})))
  = [false].
Proof.
  apply (proj1 (sync_hook_forward_without_build Sample.host Sample.app
                  Sample.port_8080 (Some Sample.inet6_hints) 1%positive)).
  right. reflexivity.
Defined.

(** X7.  With the real entry point captured, a call of the replacement
    entry point that produces no synthetic record (hostname not reserved, or
    no memory) makes one call through the captured pointer with the six
    arguments it was given and returns what that call returns; it touches
    neither the callback nor [*port] itself. *)
Theorem async_hook_forwards_to_captured :
  forall e port node service hints callback context st,
    is_localhost_domain node = 0 \/
    fst (make_localhost_result Darwin (host_order e) service hints (Dylib.process st))
      = None ->
    Dylib.real_async_start st <> NULL ->
    let out :=
      Dylib.hooked_getaddrinfo_async_start e port node service hints callback context st in
    fst out =
      real_async_start_result e (Dylib.real_async_start st) port node service hints
        callback context /\
    trace (Dylib.process (snd out)) =
      trace (Dylib.process st)
      ++ [Call_async_start (Dylib.real_async_start st) port node service hints
            callback context].
Proof.
  intros e port node service hints callback context st H Hreg.
  destruct (dylib_async_real e port node service hints callback context st H)
    as (Hr & _).
  destruct (Dylib.real_async_start st); [contradiction | exact Hr].
Qed.

Lemma async_hook_forwards_to_captured_witness :
  fst (Dylib.hooked_getaddrinfo_async_start Sample.host (Addr 7) Sample.elsewhere
         Sample.port_8080 None (Addr 5) (Addr 6) Sample.captured) = 0 /\
  trace (Dylib.process
           (snd (Dylib.hooked_getaddrinfo_async_start Sample.host (Addr 7)
                   Sample.elsewhere Sample.port_8080 None (Addr 5) (Addr 6)
                   Sample.captured)))
    = [Call_async_start (Addr 4096) (Addr 7) Sample.elsewhere Sample.port_8080 None
         (Addr 5) (Addr 6)].
Proof.
  apply (async_hook_forwards_to_captured Sample.host (Addr 7) Sample.elsewhere
           Sample.port_8080 None (Addr 5) (Addr 6) Sample.captured).
  - left. reflexivity.
  - discriminate.
Defined.

(** X8.  Called for a reserved hostname with a null callback, the
    replacement entry point still builds the record (two allocations) and
    returns 0, but hands the record to nobody: all it does outside is the
    store through [port], if that is not null. *)
Theorem async_hook_null_callback_drops_record :
  forall e port node service hints context st,
    is_localhost_domain node = 1 ->
    allocations_succeed (Dylib.process st) = true ->
    let out :=
      Dylib.hooked_getaddrinfo_async_start e port node service hints NULL context st in
    fst out = 0 /\
    trace (Dylib.process (snd out)) = trace (Dylib.process st) ++ port_store port /\
    calloc_plan (Dylib.process (snd out)) = skipn 2 (calloc_plan (Dylib.process st)).
Proof.
  intros e port node service hints context st Hres Ha.
  unfold allocations_succeed in Ha.
  world_cases st; cbn [Dylib.process calloc_plan] in Ha; try discriminate Ha;
    run_hook; rewrite Hres; cbv [Z.eqb];
    destruct port; cbn; rewrite ?app_nil_r; auto.
Qed.

Lemma async_hook_null_callback_drops_record_witness :
  fst (Dylib.hooked_getaddrinfo_async_start Sample.host (Addr 7) Sample.app
         Sample.port_8080 None NULL (Addr 6) Sample.captured) = 0 /\
  trace (Dylib.process
           (snd (Dylib.hooked_getaddrinfo_async_start Sample.host (Addr 7)
                   Sample.app Sample.port_8080 None NULL (Addr 6)
                   Sample.captured)))
    = [Store_port (Addr 7) 0].
Proof.
  destruct (async_hook_null_callback_drops_record Sample.host (Addr 7) Sample.app
              Sample.port_8080 None (Addr 6) Sample.captured
              ltac:(reflexivity) ltac:(reflexivity)) as (H1 & H2 & _).
  split; [exact H1 | exact H2].
Defined.

(** X9.  Whatever its arguments and the state, one call of the replacement
    entry point does at most one of: call the callback once, call the
    captured real entry point once.  It never does both, and never either
    twice. *)
Theorem async_hook_single_completion :
  forall e port node service hints callback context st,
    let out :=
      Dylib.hooked_getaddrinfo_async_start e port node service hints callback context st in
    exists new,
      trace (Dylib.process (snd out)) = trace (Dylib.process st) ++ new /\
      (callbacks new + real_calls new <= 1)%nat.
Proof.
  intros e port node service hints callback context st out. subst out.
  destruct (is_localhost_domain_bool node) as [Hres|Hres].
  - destruct (fst (make_localhost_result Darwin (host_order e) service hints
                     (Dylib.process st))) as [r|] eqn:Hb.
    + destruct (dylib_async_synthetic e port node service hints callback context
                  st r Hres Hb) as (_ & Ht & _).
      eexists. split; [exact Ht|].
      destruct callback, port; cbn; lia.
    + destruct (dylib_async_real e port node service hints callback context st
                  (or_intror Hb)) as (Hr & _).
      destruct (Dylib.real_async_start st); cbn in Hr; destruct Hr as (_ & Ht);
        eexists; (split; [exact Ht|]); destruct callback; cbn; lia.
  - destruct (dylib_async_real e port node service hints callback context st
                (or_introl Hres)) as (Hr & _).
    destruct (Dylib.real_async_start st); cbn in Hr; destruct Hr as (_ & Ht);
      eexists; (split; [exact Ht|]); destruct callback; cbn; lia.
Qed.

(** X10.  For a null symbol and for every symbol whose name is not exactly
    "getaddrinfo_async_start", the lookup hook is the real lookup: it returns
    the real answer and changes nothing, so nothing is captured and nothing
    logged. *)
Theorem hooked_dlsym_passes_other_symbols :
  forall e handle symbol st,
    (forall name, symbol = Some name -> c_str name <> lit "getaddrinfo_async_start") ->
    Dylib.hooked_dlsym e handle symbol st
    = (Dylib.Real_symbol (dlsym e handle symbol), st).
Proof.
  intros e handle symbol st H.
  assert (Dylib.is_async_symbol symbol = false) as Hs.
  { destruct symbol as [name|]; [|reflexivity].
    destruct (Dylib.is_async_symbol (Some name)) eqn:E; [|reflexivity].
    apply is_async_symbol_text in E. now apply H in E. }
  unfold Dylib.hooked_dlsym. rewrite Hs. reflexivity.
Qed.

Lemma hooked_dlsym_passes_other_symbols_witness :
  Dylib.hooked_dlsym Sample.host NULL (Some (lit "getaddrinfo_async_start2"))
    (Dylib.initial Sample.quiet)
  = (Dylib.Real_symbol (Addr 4096), Dylib.initial Sample.quiet) /\
  Dylib.hooked_dlsym Sample.host NULL None (Dylib.initial Sample.quiet)
  = (Dylib.Real_symbol (Addr 4096), Dylib.initial Sample.quiet).
Proof.
  split.
  - apply (hooked_dlsym_passes_other_symbols Sample.host NULL
             (Some (lit "getaddrinfo_async_start2")) (Dylib.initial Sample.quiet)).
    intros name Hn. injection Hn as <-. vm_compute. discriminate.
  - apply (hooked_dlsym_passes_other_symbols Sample.host NULL None
             (Dylib.initial Sample.quiet)).
    discriminate.
Defined.

(** X16.  For a hostname that is not reserved the replacement entry point
    attempts no allocation and leaves the static alone: apart from the log,
    all it changes is the trace, by the one call or callback of X9. *)
Theorem async_hook_passes_without_build :
  forall e port node service hints callback context st,
    is_localhost_domain node = 0 ->
    let out :=
      Dylib.hooked_getaddrinfo_async_start e port node service hints callback context st in
    calloc_plan (Dylib.process (snd out)) = calloc_plan (Dylib.process st) /\
    Dylib.real_async_start (snd out) = Dylib.real_async_start st /\
    trace (Dylib.process (snd out)) =
      trace (Dylib.process st)
      ++ (if is_null (Dylib.real_async_start st)
          then callback_event callback (-1) None context
          else [Call_async_start (Dylib.real_async_start st) port node service hints
                  callback context]).
Proof.
  intros e port node service hints callback context st Hres.
  world_cases st; run_hook; rewrite Hres; cbv [Z.eqb];
    destruct reg, callback; cbn; rewrite ?app_nil_r; auto.
Qed.

Lemma async_hook_passes_without_build_witness :
  calloc_plan
    (Dylib.process
       (snd (Dylib.hooked_getaddrinfo_async_start Sample.host (Addr 7)
               Sample.elsewhere Sample.port_8080 None (Addr 5) (Addr 6)
               {| Dylib.real_async_start := Addr 4096;
                  Dylib.process :=
                    {| calloc_plan := [false; true]; trace := [];
                       LOHOST_DEBUG := None; stderr := [] |} |})))
  = [false; true].
Proof.
  exact (proj1 (async_hook_passes_without_build Sample.host (Addr 7)
                  Sample.elsewhere Sample.port_8080 None (Addr 5) (Addr 6)
                  {| Dylib.real_async_start := Addr 4096;
                     Dylib.process :=
                       {| calloc_plan := [false; true]; trace := [];
                          LOHOST_DEBUG := None; stderr := [] |} |}
                  eq_refl)).
Defined.

(* ================================================================= *)
(** ** Whole runs of a process *)

Lemma async_targets_app (t u : list event) :
  async_targets (t ++ u) = async_targets t ++ async_targets u.
Proof. apply flat_map_app. Qed.

Lemma sync_targets_app (t u : list event) :
  sync_targets (t ++ u) = sync_targets t ++ sync_targets u.
Proof. apply flat_map_app. Qed.

Lemma through_null (targets : list ptr) : through NULL targets -> targets = [].
Proof.
  destruct 1 as [|fn l [H1 H2] _]; [reflexivity | congruence].
Qed.

Lemma dylib_step_trace st c :
  exists new,
    trace (Dylib.process (Dylib.step st c)) = trace (Dylib.process st) ++ new /\
    (async_targets new = [] \/
     (Dylib.real_async_start st <> NULL /\
      async_targets new = [Dylib.real_async_start st])).
Proof.
  destruct c as [e handle symbol | e node service hints res
                | e port node service hints callback context]; simpl.
  - exists []. rewrite app_nil_r. split; [apply dylib_dlsym_frame | now left].
  - destruct (is_localhost_domain_bool node) as [Hres|Hres];
      [|eexists; split; [now apply dylib_sync_forward; left | now left]].
    destruct (hints_want_inet6 Darwin hints) eqn:H6;
      [eexists; split; [now apply dylib_sync_forward; right; left | now left]|].
    destruct (fst (make_localhost_result Darwin (host_order e) service hints
                     (Dylib.process st))) as [r|] eqn:Hb.
    + eexists; split;
        [now apply (dylib_sync_synthetic e node service hints res st r) | now left].
    + eexists; split; [now apply dylib_sync_forward; right; right | now left].
  - assert (forall r, async_targets (callback_event callback 0 (Some r) context
                                     ++ port_store port) = []) as Hsyn
      by (intro r; destruct callback, port; reflexivity).
    assert (async_targets (callback_event callback (-1) None context) = []) as Hdeg
      by (destruct callback; reflexivity).
    assert (is_localhost_domain node = 0 \/
            fst (make_localhost_result Darwin (host_order e) service hints
                   (Dylib.process st)) = None ->
            exists new,
              trace (Dylib.process
                       (snd (Dylib.hooked_getaddrinfo_async_start e port node
                               service hints callback context st)))
              = trace (Dylib.process st) ++ new /\
              (async_targets new = [] \/
               (Dylib.real_async_start st <> NULL /\
                async_targets new = [Dylib.real_async_start st]))) as Hreal.
    { intro H.
      destruct (dylib_async_real e port node service hints callback context st H)
        as (Hr & _).
      destruct (Dylib.real_async_start st) eqn:Hreg; cbn in Hr;
        destruct Hr as (_ & Ht); eexists; (split; [exact Ht|]).
      - now left.
      - right. split; [discriminate | reflexivity]. }
    destruct (is_localhost_domain_bool node) as [Hres|Hres]; [|now apply Hreal; left].
    destruct (fst (make_localhost_result Darwin (host_order e) service hints
                     (Dylib.process st))) as [r|] eqn:Hb; [|now apply Hreal; right].
    destruct (dylib_async_synthetic e port node service hints callback context
                st r Hres Hb) as (_ & Ht & _).
    eexists. split; [exact Ht | left; apply Hsyn].
Qed.

Lemma dylib_step_through st c :
  through (Dylib.real_async_start st) (async_targets (trace (Dylib.process st))) ->
  through (Dylib.real_async_start (Dylib.step st c))
    (async_targets (trace (Dylib.process (Dylib.step st c)))).
Proof.
  intro Hinv.
  destruct (dylib_step_trace st c) as (new & Ht & Hnew).
  rewrite Ht, async_targets_app.
  destruct (Dylib.real_async_start st) eqn:Hreg.
  - apply through_null in Hinv. rewrite Hinv.
    destruct Hnew as [Hnew|[Hnew _]]; [|congruence].
    rewrite Hnew. constructor.
  - rewrite dylib_step_keeps by congruence. rewrite Hreg.
    apply Forall_app. split; [exact Hinv|].
    destruct Hnew as [Hnew|[_ Hnew]]; rewrite Hnew; [constructor|].
    constructor; [split; [reflexivity | discriminate] | constructor].
Qed.

Lemma dylib_run_through cs :
  forall st,
    through (Dylib.real_async_start st) (async_targets (trace (Dylib.process st))) ->
    through (Dylib.real_async_start (Dylib.run cs st))
      (async_targets (trace (Dylib.process (Dylib.run cs st)))).
Proof.
  induction cs as [|c cs IH]; intros st H; [exact H|].
  change (Dylib.run (c :: cs) st) with (Dylib.run cs (Dylib.step st c)).
  apply IH, dylib_step_through, H.
Qed.

(** X11.  In a process that starts with no asynchronous call behind it, then
    goes through any sequence of lookups and resolver calls, every call the
    module makes of a real asynchronous entry point goes through one and the
    same non-null pointer: the first address captured.  The module never
    calls through null, nor through an address a later lookup found. *)
Theorem async_calls_through_first_capture :
  forall cs s,
    async_targets (trace s) = [] ->
    Forall (fun fn => fn = Dylib.first_capture cs /\ fn <> NULL)
      (async_targets (trace (Dylib.process (Dylib.run cs (Dylib.initial s))))).
Proof.
  intros cs s Hs.
  rewrite <- (dylib_run_first_capture cs (Dylib.initial s) eq_refl).
  apply dylib_run_through. simpl. rewrite Hs. constructor.
Qed.

Lemma async_calls_through_first_capture_witness :
  Forall (fun fn => fn = Addr 4096 /\ fn <> NULL)
    (async_targets
       (trace (Dylib.process
                 (Dylib.run
                    [Dylib.Async_start Sample.host NULL Sample.elsewhere None None
                       (Addr 5) (Addr 6);
                     Dylib.Dlsym Sample.host NULL (Some Dylib.async_symbol);
                     Dylib.Dlsym Sample.later_host NULL (Some Dylib.async_symbol);
                     Dylib.Async_start Sample.later_host NULL Sample.elsewhere None
                       None (Addr 5) (Addr 6)]
                    (Dylib.initial Sample.quiet))))).
Proof.
  exact (async_calls_through_first_capture
           [Dylib.Async_start Sample.host NULL Sample.elsewhere None None
              (Addr 5) (Addr 6);
            Dylib.Dlsym Sample.host NULL (Some Dylib.async_symbol);
            Dylib.Dlsym Sample.later_host NULL (Some Dylib.async_symbol);
            Dylib.Async_start Sample.later_host NULL Sample.elsewhere None
              None (Addr 5) (Addr 6)]
           Sample.quiet eq_refl).
Defined.

Lemma linux_step_cases st c :
  let e := Linux.call_env c in
  Linux.real_getaddrinfo (Linux.step st c) = Linux.located e st /\
  exists new,
    trace (Linux.process (Linux.step st c)) = trace (Linux.process st) ++ new /\
    (sync_targets new = [] \/
     (Linux.located e st <> NULL /\ sync_targets new = [Linux.located e st])).
Proof.
  destruct c as [e node service hints res]. unfold Linux.step. simpl.
  destruct (Linux.located e st) eqn:Hloc.
  { destruct (linux_sync_unavailable e node service hints res st Hloc)
      as (_ & Ht & Hreg).
    split; [exact Hreg|]. exists []. rewrite app_nil_r. split; [exact Ht | now left]. }
  assert (Linux.located e st <> NULL) as Hok by congruence.
  assert (is_localhost_domain node = 0 \/
          hints_want_inet6 Linux hints = true \/
          fst (make_localhost_result Linux (host_order e) service hints
                 (Linux.process st)) = None ->
          Linux.real_getaddrinfo
            (snd (Linux.getaddrinfo e node service hints res st)) = Addr a /\
          exists new,
            trace (Linux.process (snd (Linux.getaddrinfo e node service hints res st)))
            = trace (Linux.process st) ++ new /\
            (sync_targets new = [] \/
             (Addr a <> NULL /\ sync_targets new = [Addr a]))) as Hfwd.
  { intro H.
    destruct (linux_sync_forward e node service hints res st Hok H)
      as (_ & Ht & Hreg).
    rewrite Hloc in Ht, Hreg. split; [exact Hreg|].
    eexists. split; [exact Ht|]. right. split; [discriminate | reflexivity]. }
  destruct (is_localhost_domain_bool node) as [Hres|Hres]; [|now apply Hfwd; left].
  destruct (hints_want_inet6 Linux hints) eqn:H6; [now apply Hfwd; right; left|].
  destruct (fst (make_localhost_result Linux (host_order e) service hints
                   (Linux.process st))) as [r|] eqn:Hb;
    [|now apply Hfwd; right; right].
  destruct (linux_sync_synthetic e node service hints res st r Hok Hres H6 Hb)
    as (_ & Ht & Hreg).
  rewrite Hloc in Hreg. split; [exact Hreg|].
  eexists. split; [exact Ht | now left].
Qed.

Lemma linux_run_keeps cs :
  forall st,
    Linux.real_getaddrinfo st <> NULL ->
    Linux.real_getaddrinfo (Linux.run cs st) = Linux.real_getaddrinfo st.
Proof.
  induction cs as [|c cs IH]; intros st H; [reflexivity|].
  change (Linux.run (c :: cs) st) with (Linux.run cs (Linux.step st c)).
  assert (Linux.real_getaddrinfo (Linux.step st c) = Linux.real_getaddrinfo st) as Hs.
  { rewrite (proj1 (linux_step_cases st c)). unfold Linux.located.
    destruct (Linux.real_getaddrinfo st); [contradiction | reflexivity]. }
  rewrite IH; rewrite Hs; [reflexivity | exact H].
Qed.

Lemma linux_run_first_located cs :
  forall st,
    Linux.real_getaddrinfo st = NULL ->
    Linux.real_getaddrinfo (Linux.run cs st) = Linux.first_located cs.
Proof.
  induction cs as [|c cs IH]; intros st H; [exact H|].
  change (Linux.run (c :: cs) st) with (Linux.run cs (Linux.step st c)).
  pose proof (proj1 (linux_step_cases st c)) as Hs.
  unfold Linux.located in Hs. rewrite H in Hs. simpl in Hs. simpl.
  destruct (dlsym (Linux.call_env c) Linux.RTLD_NEXT (Some (lit "getaddrinfo")))
    eqn:Hd; simpl.
  - apply IH. exact Hs.
  - rewrite linux_run_keeps; rewrite Hs; [reflexivity | discriminate].
Qed.

Lemma linux_step_through st c :
  through (Linux.real_getaddrinfo st) (sync_targets (trace (Linux.process st))) ->
  through (Linux.real_getaddrinfo (Linux.step st c))
    (sync_targets (trace (Linux.process (Linux.step st c)))).
Proof.
  intro Hinv.
  destruct (linux_step_cases st c) as (Hreg & new & Ht & Hnew).
  rewrite Ht, sync_targets_app, Hreg. unfold Linux.located in *.
  destruct (Linux.real_getaddrinfo st) eqn:Hst; simpl in *.
  - apply through_null in Hinv. rewrite Hinv. simpl.
    destruct Hnew as [Hnew|[Hne Hnew]]; rewrite Hnew; [constructor|].
    constructor; [split; [reflexivity | exact Hne] | constructor].
  - apply Forall_app. split; [exact Hinv|].
    destruct Hnew as [Hnew|[Hne Hnew]]; rewrite Hnew; [constructor|].
    constructor; [split; [reflexivity | exact Hne] | constructor].
Qed.

Lemma linux_run_through cs :
  forall st,
    through (Linux.real_getaddrinfo st) (sync_targets (trace (Linux.process st))) ->
    through (Linux.real_getaddrinfo (Linux.run cs st))
      (sync_targets (trace (Linux.process (Linux.run cs st)))).
Proof.
  induction cs as [|c cs IH]; intros st H; [exact H|].
  change (Linux.run (c :: cs) st) with (Linux.run cs (Linux.step st c)).
  apply IH, linux_step_through, H.
Qed.

(** X12.  On Linux, over any sequence of calls of the override in a process
    that starts with no resolver call behind it: the cached pointer is the
    first non-null answer the loader gave (a failed lookup is tried again at
    the next call, a successful one never repeated), and every call of the
    real resolver goes through that one pointer, never through null. *)
Theorem linux_resolver_located_once :
  forall cs s,
    sync_targets (trace s) = [] ->
    Linux.real_getaddrinfo (Linux.run cs (Linux.initial s)) = Linux.first_located cs /\
    Forall (fun fn => fn = Linux.first_located cs /\ fn <> NULL)
      (sync_targets (trace (Linux.process (Linux.run cs (Linux.initial s))))).
Proof.
  intros cs s Hs.
  pose proof (linux_run_first_located cs (Linux.initial s) eq_refl) as Hreg.
  split; [exact Hreg|]. rewrite <- Hreg.
  apply linux_run_through. simpl. rewrite Hs. constructor.
Qed.

Lemma linux_resolver_located_once_witness :
  Linux.real_getaddrinfo
    (Linux.run
       [Linux.Getaddrinfo Sample.bare_host Sample.elsewhere None None 1%positive;
        Linux.Getaddrinfo Sample.host Sample.elsewhere None None 1%positive;
        Linux.Getaddrinfo Sample.later_host Sample.elsewhere None None 1%positive]
       (Linux.initial Sample.quiet)) = Addr 4096 /\
  Forall (fun fn => fn = Addr 4096 /\ fn <> NULL)
    (sync_targets
       (trace (Linux.process
                 (Linux.run
                    [Linux.Getaddrinfo Sample.bare_host Sample.elsewhere None None
                       1%positive;
                     Linux.Getaddrinfo Sample.host Sample.elsewhere None None
                       1%positive;
                     Linux.Getaddrinfo Sample.later_host Sample.elsewhere None None
                       1%positive]
                    (Linux.initial Sample.quiet))))).
Proof.
  exact (linux_resolver_located_once
           [Linux.Getaddrinfo Sample.bare_host Sample.elsewhere None None 1%positive;
            Linux.Getaddrinfo Sample.host Sample.elsewhere None None 1%positive;
            Linux.Getaddrinfo Sample.later_host Sample.elsewhere None None 1%positive]
           Sample.quiet eq_refl).
Defined.

(* ================================================================= *)
(** ** The debug log *)

Lemma dylib_step_quiet st c :
  LOHOST_DEBUG (Dylib.process st) = None ->
  LOHOST_DEBUG (Dylib.process (Dylib.step st c)) = None /\
  stderr (Dylib.process (Dylib.step st c)) = stderr (Dylib.process st).
Proof.
  intro H.
  destruct c as [e handle symbol | e node service hints res
                | e port node service hints callback context]; simpl.
  - unfold Dylib.hooked_dlsym. destruct (Dylib.is_async_symbol symbol);
      [|split; [exact H | reflexivity]].
    quiet_cases st H; destruct reg, (dlsym e handle symbol); split; reflexivity.
  - destruct (is_localhost_domain_bool node) as [Hres|Hres];
      destruct (hints_want_inet6 Darwin hints) eqn:H6;
      quiet_cases st H; run_hook; rewrite ?Hres, ?H6; split; reflexivity.
  - destruct (is_localhost_domain_bool node) as [Hres|Hres];
      quiet_cases st H; run_hook; rewrite ?Hres;
      destruct reg, callback, port; split; reflexivity.
Qed.

Lemma linux_step_quiet st c :
  LOHOST_DEBUG (Linux.process st) = None ->
  LOHOST_DEBUG (Linux.process (Linux.step st c)) = None /\
  stderr (Linux.process (Linux.step st c)) = stderr (Linux.process st).
Proof.
  intro H. destruct c as [e node service hints res]. unfold Linux.step. simpl.
  destruct (is_localhost_domain_bool node) as [Hres|Hres];
    destruct (hints_want_inet6 Linux hints) eqn:H6;
    quiet_cases st H;
    (destruct reg;
     [destruct (dlsym e Linux.RTLD_NEXT (Some (lit "getaddrinfo"))) eqn:Hdl|]);
    run_hook; rewrite ?Hdl, ?Hres, ?H6; run_hook; split; reflexivity.
Qed.

Lemma dylib_run_env_quiet cs :
  forall st,
    Forall (fun p => fst p = None) cs ->
    stderr (Dylib.process (dylib_run_env cs st)) = stderr (Dylib.process st).
Proof.
  induction cs as [|[v c] cs IH]; intros st H; [reflexivity|].
  inversion H as [|p l Hv Hcs]; subst. simpl in Hv. subst v.
  change (dylib_run_env ((None, c) :: cs) st)
    with (dylib_run_env cs (Dylib.step (dylib_setenv None st) c)).
  rewrite (IH _ Hcs).
  now destruct (dylib_step_quiet (dylib_setenv None st) c eq_refl) as (_ & ->).
Qed.

Lemma linux_run_env_quiet cs :
  forall st,
    Forall (fun p => fst p = None) cs ->
    stderr (Linux.process (linux_run_env cs st)) = stderr (Linux.process st).
Proof.
  induction cs as [|[v c] cs IH]; intros st H; [reflexivity|].
  inversion H as [|p l Hv Hcs]; subst. simpl in Hv. subst v.
  change (linux_run_env ((None, c) :: cs) st)
    with (linux_run_env cs (Linux.step (linux_setenv None st) c)).
  rewrite (IH _ Hcs).
  now destruct (linux_step_quiet (linux_setenv None st) c eq_refl) as (_ & ->).
Qed.

(** X13.  A call of a hook, or a run of the constructor, made while
    LOHOST_DEBUG is unset writes nothing to stderr, whatever its arguments
    and outcome, whatever the variable was before and whatever has been
    logged already.  So over a sequence of calls between which the host may
    set and unset the variable, stderr is unchanged when the variable is
    unset at each call. *)
Theorem silent_while_LOHOST_DEBUG_unset :
  (forall st c,
      LOHOST_DEBUG (Dylib.process st) = None ->
      stderr (Dylib.process (Dylib.step st c)) = stderr (Dylib.process st)) /\
  (forall st c,
      LOHOST_DEBUG (Linux.process st) = None ->
      stderr (Linux.process (Linux.step st c)) = stderr (Linux.process st)) /\
  (forall s,
      LOHOST_DEBUG s = None ->
      stderr (Dylib.process (Dylib.loaded s)) = stderr s /\
      stderr (Linux.process (Linux.loaded s)) = stderr s) /\
  (forall cs st,
      Forall (fun p => fst p = None) cs ->
      stderr (Dylib.process (dylib_run_env cs st)) = stderr (Dylib.process st)) /\
  (forall cs st,
      Forall (fun p => fst p = None) cs ->
      stderr (Linux.process (linux_run_env cs st)) = stderr (Linux.process st)).
Proof.
  repeat apply conj.
  - intros st c H. now destruct (dylib_step_quiet st c H).
  - intros st c H. now destruct (linux_step_quiet st c H).
  - intros [plan tr dbg err] H. simpl in H. subst dbg. split; reflexivity.
  - intros cs st H. now apply dylib_run_env_quiet.
  - intros cs st H. now apply linux_run_env_quiet.
Qed.

(** The variable is read at each line: a process started without it logs as
    soon as the host has set it. *)
Example logs_once_LOHOST_DEBUG_is_set :
  stderr
    (Dylib.process
       (dylib_run_env
          [(None, Dylib.Dlsym Sample.host NULL (Some Dylib.async_symbol));
           (Some (lit "1"), Dylib.Dlsym Sample.host NULL None)]
          (Dylib.loaded Sample.quiet))) = [] /\
  stderr
    (Dylib.process
       (dylib_run_env
          [(None, Dylib.Dlsym Sample.host NULL (Some Dylib.async_symbol));
           (Some (lit "1"), Dylib.Dlsym Sample.host NULL (Some Dylib.async_symbol))]
          (Dylib.loaded Sample.quiet)))
  = ["[lohost-dns] dlsym(getaddrinfo_async_start) -> returning our hook"%string].
Proof. split; reflexivity. Qed.

(** A process that logged while the variable was set, then has it unset for
    a lookup and a resolution. *)
Lemma silent_while_LOHOST_DEBUG_unset_witness :
  stderr
    (Dylib.process
       (dylib_run_env
          [(None, Dylib.Dlsym Sample.host NULL (Some Dylib.async_symbol));
           (None, Dylib.Async_start Sample.host NULL Sample.app None None
                    (Addr 5) (Addr 6))]
          {| Dylib.real_async_start := NULL;
             Dylib.process :=
               {| calloc_plan := []; trace := [];
                  LOHOST_DEBUG := Some (lit "1");
                  stderr := ["[lohost-dns] FULL VERSION loaded (hooks: getaddrinfo, dlsym)"%string] |} |}))
  = ["[lohost-dns] FULL VERSION loaded (hooks: getaddrinfo, dlsym)"%string].
Proof.
  apply (proj1 (proj2 (proj2 (proj2 silent_while_LOHOST_DEBUG_unset)))
           [(None, Dylib.Dlsym Sample.host NULL (Some Dylib.async_symbol));
            (None, Dylib.Async_start Sample.host NULL Sample.app None None
                     (Addr 5) (Addr 6))]).
  repeat constructor.
Defined.

(** X14.  Logging is a side channel.  Two processes that differ only in the
    debug variable and in what stderr holds get, from each hook on the same
    arguments, the same return value, the same static, the same calls and
    stores, and the same allocations. *)
Theorem hooks_ignore_the_log :
  forall e,
    (forall node service hints res st1 st2,
        Dylib.real_async_start st1 = Dylib.real_async_start st2 ->
        same_but_log (Dylib.process st1) (Dylib.process st2) ->
        let o1 := Dylib.hooked_getaddrinfo e node service hints res st1 in
        let o2 := Dylib.hooked_getaddrinfo e node service hints res st2 in
        fst o1 = fst o2 /\
        Dylib.real_async_start (snd o1) = Dylib.real_async_start (snd o2) /\
        same_but_log (Dylib.process (snd o1)) (Dylib.process (snd o2))) /\
    (forall port node service hints callback context st1 st2,
        Dylib.real_async_start st1 = Dylib.real_async_start st2 ->
        same_but_log (Dylib.process st1) (Dylib.process st2) ->
        let o1 := Dylib.hooked_getaddrinfo_async_start e port node service hints
                    callback context st1 in
        let o2 := Dylib.hooked_getaddrinfo_async_start e port node service hints
                    callback context st2 in
        fst o1 = fst o2 /\
        Dylib.real_async_start (snd o1) = Dylib.real_async_start (snd o2) /\
        same_but_log (Dylib.process (snd o1)) (Dylib.process (snd o2))) /\
    (forall handle symbol st1 st2,
        Dylib.real_async_start st1 = Dylib.real_async_start st2 ->
        same_but_log (Dylib.process st1) (Dylib.process st2) ->
        let o1 := Dylib.hooked_dlsym e handle symbol st1 in
        let o2 := Dylib.hooked_dlsym e handle symbol st2 in
        fst o1 = fst o2 /\
        Dylib.real_async_start (snd o1) = Dylib.real_async_start (snd o2) /\
        same_but_log (Dylib.process (snd o1)) (Dylib.process (snd o2))) /\
    (forall node service hints res st1 st2,
        Linux.real_getaddrinfo st1 = Linux.real_getaddrinfo st2 ->
        same_but_log (Linux.process st1) (Linux.process st2) ->
        let o1 := Linux.getaddrinfo e node service hints res st1 in
        let o2 := Linux.getaddrinfo e node service hints res st2 in
        fst o1 = fst o2 /\
        Linux.real_getaddrinfo (snd o1) = Linux.real_getaddrinfo (snd o2) /\
        same_but_log (Linux.process (snd o1)) (Linux.process (snd o2))).
Proof.
  intro e. repeat apply conj.
  - intros node service hints res st1 st2 Hreg Hlog.
    destruct (is_localhost_domain_bool node) as [Hres|Hres];
      destruct (hints_want_inet6 Darwin hints) eqn:H6;
      twin_cases st1 st2 Hreg Hlog; run_hook; rewrite ?Hres, ?H6;
      repeat split; reflexivity.
  - intros port node service hints callback context st1 st2 Hreg Hlog.
    destruct (is_localhost_domain_bool node) as [Hres|Hres];
      twin_cases st1 st2 Hreg Hlog; run_hook; rewrite ?Hres;
      destruct reg, callback, port; repeat split; reflexivity.
  - intros handle symbol st1 st2 Hreg Hlog.
    unfold Dylib.hooked_dlsym. destruct (Dylib.is_async_symbol symbol).
    + twin_cases st1 st2 Hreg Hlog; destruct reg, (dlsym e handle symbol);
        repeat split; reflexivity.
    + cbn. auto.
  - intros node service hints res st1 st2 Hreg Hlog.
    destruct (is_localhost_domain_bool node) as [Hres|Hres];
      destruct (hints_want_inet6 Linux hints) eqn:H6;
      twin_cases st1 st2 Hreg Hlog;
      (destruct reg;
       [destruct (dlsym e Linux.RTLD_NEXT (Some (lit "getaddrinfo"))) eqn:Hdl|]);
      run_hook; rewrite ?Hdl, ?Hres, ?H6; run_hook;
      repeat split; reflexivity.
Qed.

Lemma hooks_ignore_the_log_witness :
  fst (Dylib.hooked_getaddrinfo_async_start Sample.host (Addr 7) Sample.app
         Sample.port_8080 None (Addr 5) (Addr 6) Sample.captured)
  = fst (Dylib.hooked_getaddrinfo_async_start Sample.host (Addr 7) Sample.app
           Sample.port_8080 None (Addr 5) (Addr 6)
           {| Dylib.real_async_start := Addr 4096;
              Dylib.process :=
                {| calloc_plan := []; trace := [];
                   LOHOST_DEBUG := Some (lit "1"); stderr := ["boot"%string] |} |}).
Proof.
  apply (proj1 (proj2 (hooks_ignore_the_log Sample.host)) (Addr 7) Sample.app
           Sample.port_8080 None (Addr 5) (Addr 6) Sample.captured
           {| Dylib.real_async_start := Addr 4096;
              Dylib.process :=
                {| calloc_plan := []; trace := [];
                   LOHOST_DEBUG := Some (lit "1"); stderr := ["boot"%string] |} |}).
  - reflexivity.
  - split; reflexivity.
Defined.

(* ================================================================= *)
(** ** Decimal service strings *)

Lemma digits_value_of_uint_acc (d : Decimal.uint) :
  forall acc : positive,
    digits_value (Z.pos acc) (bytes_of_uint d) = Z.pos (Pos.of_uint_acc d acc).
Proof.
  induction d; intro acc; cbn [bytes_of_uint digits_value Pos.of_uint_acc];
    try reflexivity;
    match goal with
    | |- context [isdigit ?c] => change (isdigit c) with true; cbv iota
    end;
    match goal with
    | |- context [uchar ?c - 48] =>
        let v := eval vm_compute in (uchar c - 48) in
        change (uchar c - 48) with v
    end;
    rewrite <- IHd; f_equal; lia.
Qed.

Lemma digits_value_of_uint (d : Decimal.uint) :
  digits_value 0 (bytes_of_uint d) = Z.of_N (Pos.of_uint d).
Proof.
  induction d; cbn [bytes_of_uint digits_value Pos.of_uint];
    try reflexivity;
    match goal with
    | |- context [isdigit ?c] => change (isdigit c) with true; cbv iota
    end;
    match goal with
    | |- context [uchar ?c - 48] =>
        let v := eval vm_compute in (uchar c - 48) in
        change (uchar c - 48) with v
    end;
    try exact IHd;
    cbn [Z.mul Z.add Z.of_N];
    match goal with
    | |- digits_value (Z.pos ?p) _ = _ => rewrite digits_value_of_uint_acc
    end; reflexivity.
Qed.

Lemma strtol10_unsigned_digits (d : Decimal.uint) :
  strtol10 (bytes_of_uint d)
  = Z.max LONG_MIN (Z.min LONG_MAX (digits_value 0 (bytes_of_uint d))).
Proof.
  destruct d; reflexivity.
Qed.

Lemma atoi_decimal (n : N) :
  Z.of_N n < 2 ^ 31 -> atoi (decimal n) = Z.of_N n.
Proof.
  intro Hn. unfold atoi, decimal.
  rewrite strtol10_unsigned_digits, digits_value_of_uint.
  change (Pos.of_uint (N.to_uint n)) with (N.of_uint (N.to_uint n)).
  rewrite DecimalN.Unsigned.of_to.
  unfold LONG_MIN, LONG_MAX, to_int.
  assert (0 <= Z.of_N n) by lia.
  rewrite Z.min_r by lia. rewrite Z.max_r by lia.
  rewrite Z.mod_small by lia. lia.
Qed.

(** X15.  When the service is the decimal numeral of a number n below 2^31,
    the port of the record, read in network byte order, is n modulo 2^16:
    n itself for every valid port 1..65535, 0 for "0", and the wrapped value
    above 65535. *)
Theorem make_localhost_result_decimal_service :
  forall o bo hints s ai (n : N),
    Z.of_N n < 2 ^ 31 ->
    fst (make_localhost_result o bo (Some (decimal n)) hints s) = Some ai ->
    exists sa,
      ai_addr ai = Some (Sockaddr_in sa) /\
      ntohs bo (sin_port sa) = Z.of_N n mod 2 ^ 16 /\
      (0 < Z.of_N n < 2 ^ 16 -> ntohs bo (sin_port sa) = Z.of_N n).
Proof.
  intros o bo hints s ai n Hn H.
  assert (ntohs bo (htons bo (if 0 <? atoi (decimal n) then atoi (decimal n) else 0))
          = Z.of_N n mod 2 ^ 16) as Hport.
  { rewrite ntohs_htons, (atoi_decimal n Hn).
    destruct (Z.ltb_spec 0 (Z.of_N n)) as [Hp|Hp]; [reflexivity|].
    replace (Z.of_N n) with 0 by lia. reflexivity. }
  builder_cases s H.
  all: eexists; split; [reflexivity|].
  all: destruct o;
       cbn [sin_port set_sin_port set_sin_addr set_sin_family set_sin_len
            zero_sockaddr_in inet_pton_AF_INET];
       change (inet_pton4 (lit "127.0.0.1") [] 0 false) with (Some [127; 0; 0; 1]);
       cbn [sin_port set_sin_port set_sin_addr set_sin_family set_sin_len
            zero_sockaddr_in].
  all: rewrite Hport; split; [reflexivity|]; intro Hr; apply Z.mod_small; lia.
Qed.

Lemma make_localhost_result_decimal_service_witness :
  decimal 443 = lit "443" /\
  exists sa,
    ai_addr (set_ai_addr
               (Some (Sockaddr_in
                        {| sin_len := 0; sin_family := 2; sin_port := 47873;
                           sin_addr := [127; 0; 0; 1] |}))
               (Sample.loopback_8080 Linux)) = Some (Sockaddr_in sa) /\
    ntohs LittleEndian (sin_port sa) = 443.
Proof.
  split; [reflexivity|].
  destruct (make_localhost_result_decimal_service Linux LittleEndian None
              Sample.quiet
              (set_ai_addr
                 (Some (Sockaddr_in
                          {| sin_len := 0; sin_family := 2; sin_port := 47873;
                             sin_addr := [127; 0; 0; 1] |}))
                 (Sample.loopback_8080 Linux))
              443%N ltac:(reflexivity) ltac:(vm_compute; reflexivity))
    as (sa & Ha & _ & Hp).
  exists sa. split; [exact Ha|]. apply Hp. split; reflexivity.
Defined.
